(** * A shallow embedding of [main.py], the WebUI Magisk module controller.

    The backend shells out to the device to read system properties and to
    rewrite the [mode=] line of a configuration file.  The development has
    three layers:

    - [Py]: the [str] methods the program calls, on Python text whose
      code points are below 256, one [ascii] per code point;
    - the program itself, written over an abstract host ([Host]) that
      answers [subprocess.run], [os.getenv] and [open];
    - [Device]: a small executable host (a file, a shell that knows [cat]
      and a redirected [printf]) on which the program can be run.

    In a Rocq string a backslash is an ordinary character: ["\n"] below is
    the two characters backslash and n.  The line feed is [LF]. *)

From Stdlib Require Import String Ascii List ZArith NArith Bool Lia.
Import ListNotations.
Open Scope list_scope.
Open Scope string_scope.

(** ** Python text *)

Module Py.

Definition ord (c : ascii) : N := N_of_ascii c.

Definition chr (n : N) : ascii := ascii_of_N n.

Definition within (lo hi : N) (c : ascii) : bool :=
  ((lo <=? ord c) && (ord c <=? hi))%N.

(** The characters for which [str.isspace] holds. *)
Definition isspace (c : ascii) : bool :=
  within 9 13 c || within 28 32 c || (ord c =? 133)%N || (ord c =? 160)%N.

(** The line boundaries of [str.splitlines]. *)
Definition is_linebreak (c : ascii) : bool :=
  within 10 13 c || within 28 30 c || (ord c =? 133)%N.

Definition LF : ascii := chr 10.
Definition CR : ascii := chr 13.
Definition TAB : ascii := chr 9.
Definition squote : ascii := chr 39.
Definition dquote : ascii := chr 34.
Definition backslash : ascii := chr 92.

(** The one-character string ["\n"] of the Python source. *)
Definition nl : string := String LF EmptyString.

Definition is_empty (s : string) : bool :=
  match s with
  | EmptyString => true
  | String _ _ => false
  end.

(** Truth value of a [str]: [bool(s)]. *)
Definition truthy (s : string) : bool := negb (is_empty s).

Fixpoint lstrip (s : string) : string :=
  match s with
  | EmptyString => EmptyString
  | String c s' => if isspace c then lstrip s' else s
  end.

Fixpoint rstrip (s : string) : string :=
  match s with
  | EmptyString => EmptyString
  | String c s' =>
      let r := rstrip s' in
      if isspace c && is_empty r then EmptyString else String c r
  end.

(** [s.strip()] *)
Definition strip (s : string) : string := rstrip (lstrip s).

(** [s.startswith(p)] *)
Definition startswith (s p : string) : bool := String.prefix p s.

Definition lower_char (c : ascii) : ascii :=
  if within 65 90 c then chr (ord c + 32)
  else if within 192 222 c && negb (ord c =? 215)%N then chr (ord c + 32)
  else c.

(** [s.lower()] *)
Fixpoint lower (s : string) : string :=
  match s with
  | EmptyString => EmptyString
  | String c s' => String (lower_char c) (lower s')
  end.

(** The scan of [str.splitlines]: [cur] is the line being read and
    [after_cr] tells that the previous character was a carriage return,
    whose following line feed belongs to the same boundary. *)
Fixpoint lines_from (cur : string) (after_cr : bool) (s : string)
  : list string :=
  match s with
  | EmptyString => if is_empty cur then [] else [cur]
  | String c s' =>
      if after_cr && Ascii.eqb c LF then lines_from cur false s'
      else if is_linebreak c then
        cur :: lines_from EmptyString (Ascii.eqb c CR) s'
      else lines_from (cur ++ String c EmptyString) false s'
  end.

(** [s.splitlines()] *)
Definition splitlines (s : string) : list string :=
  lines_from EmptyString false s.

(** [sep.join(l)] *)
Definition join (sep : string) (l : list string) : string :=
  String.concat sep l.

(** [s.split(sep, 1)] for a one-character separator. *)
Fixpoint split1 (sep : ascii) (s : string) : list string :=
  match s with
  | EmptyString => [EmptyString]
  | String c s' =>
      if Ascii.eqb c sep then [EmptyString; s']
      else match split1 sep s' with
           | x :: r => String c x :: r
           | [] => []
           end
  end.

(** [s.split()]: the maximal runs of characters that are not spaces. *)
Fixpoint words_from (cur : string) (s : string) : list string :=
  match s with
  | EmptyString => if is_empty cur then [] else [cur]
  | String c s' =>
      if isspace c then
        if is_empty cur then words_from EmptyString s'
        else cur :: words_from EmptyString s'
      else words_from (cur ++ String c EmptyString) s'
  end.

Definition split (s : string) : list string := words_from EmptyString s.

(** The lines a text file yields when iterated: each keeps its line
    feed. *)
Fixpoint readlines_from (cur : string) (s : string) : list string :=
  match s with
  | EmptyString => if is_empty cur then [] else [cur]
  | String c s' =>
      if Ascii.eqb c LF then (cur ++ nl) :: readlines_from EmptyString s'
      else readlines_from (cur ++ String c EmptyString) s'
  end.

Definition readlines (s : string) : list string :=
  readlines_from EmptyString s.

Fixpoint contains (c : ascii) (s : string) : bool :=
  match s with
  | EmptyString => false
  | String d s' => Ascii.eqb d c || contains c s'
  end.

Definition hexdigit (n : N) : ascii :=
  if (n <? 10)%N then chr (48 + n) else chr (87 + n).

(** [\xNN] *)
Definition hex_escape (c : ascii) : string :=
  String backslash
    (String "x" (String (hexdigit (ord c / 16))
                   (String (hexdigit (ord c mod 16)) EmptyString))).

(** [str.isprintable] on one character. *)
Definition isprintable (c : ascii) : bool :=
  within 32 126 c || (within 161 255 c && negb (ord c =? 173)%N).

Definition repr_char (quote : ascii) (c : ascii) : string :=
  if Ascii.eqb c quote || Ascii.eqb c backslash then
    String backslash (String c EmptyString)
  else if Ascii.eqb c TAB then String backslash "t"
  else if Ascii.eqb c LF then String backslash "n"
  else if Ascii.eqb c CR then String backslash "r"
  else if isprintable c then String c EmptyString
  else hex_escape c.

Fixpoint repr_body (quote : ascii) (s : string) : string :=
  match s with
  | EmptyString => EmptyString
  | String c s' => repr_char quote c ++ repr_body quote s'
  end.

(** [repr(s)]: single quotes, unless the text has a single quote and no
    double quote. *)
Definition repr (s : string) : string :=
  let quote :=
    if contains squote s && negb (contains dquote s) then dquote
    else squote in
  String quote (repr_body quote s ++ String quote EmptyString).

(** [s in {"otomatis", "statis"}] *)
Definition in_modes (s : string) : bool :=
  String.eqb s "otomatis" || String.eqb s "statis".

(** Every character of [s] satisfies [p]. *)
Fixpoint all_chars (p : ascii -> bool) (s : string) : bool :=
  match s with
  | EmptyString => true
  | String c s' => p c && all_chars p s'
  end.

(** No character of [s] is a line boundary. *)
Definition one_line (s : string) : bool :=
  all_chars (fun c => negb (is_linebreak c)) s.

(** [s] begins with a character that is not a space. *)
Definition starts_solid (s : string) : bool :=
  match s with
  | EmptyString => false
  | String c _ => negb (isspace c)
  end.

(** [s] ends with a character that is not a space. *)
Fixpoint ends_solid (s : string) : bool :=
  match s with
  | EmptyString => false
  | String c EmptyString => negb (isspace c)
  | String _ s' => ends_solid s'
  end.

(** The last character of [s]. *)
Fixpoint last_char (s : string) : option ascii :=
  match s with
  | EmptyString => None
  | String c EmptyString => Some c
  | String _ s' => last_char s'
  end.

End Py.

Import Py.

(** ** The host and the outcome of one process *)

(** What [subprocess.run(c, capture_output=True, text=True, timeout=5)]
    does: it returns a completed process, or raises. *)
Inductive Attempt : Type :=
| Completed (returncode : Z) (stdout stderr : string)
| FileNotFoundError
| OtherException.

(** The operating system as the program sees it.  [getenv] is the
    environment of the server process, [open_read path] the whole text of
    a file, or nothing when opening or reading it raises. *)
Class Host : Type := {
  World : Type;
  subprocess_run : list string -> World -> Attempt * World;
  getenv : string -> option string;
  open_read : string -> World -> option string
}.

Inductive exn : Type :=
| ValueError (msg : string)
| IndexError.

(** A Python computation that returns or raises. *)
Inductive res (A : Type) : Type :=
| Ret (a : A)
| Raise (e : exn).

Arguments Ret {A} a.
Arguments Raise {A} e.

(** What a route handler hands to the framework: a body (status 200), an
    [HTTPException], or an exception of its own. *)
Inductive Response (A : Type) : Type :=
| OK (body : A)
| HTTPException (status_code : Z) (detail : string)
| Uncaught (e : exn).

Arguments OK {A} body.
Arguments HTTPException {A} status_code detail.
Arguments Uncaught {A} e.

(** [(stdout, stderr, returncode)] *)
Definition CommandResult : Type := string * option string * Z.

Record DeviceInfo : Type := {
  model : string;
  board : string;
  brand : string;
  android : string;
  kernel : string;
  cpu : string;
  ram : string
}.

(** ** The program *)

Section Backend.

Context {host : Host}.

(** The world, and the argument vectors handed to [subprocess.run] so
    far, oldest first. *)
Record State : Type := {
  world : World;
  spawned : list (list string)
}.

Definition run (c : list string) (st : State) : Attempt * State :=
  let (a, w) := subprocess_run c (world st) in
  (a, {| world := w; spawned := (spawned st ++ [c])%list |}).

Definition MODULE_NAME : string :=
  match getenv "MODULE_NAME" with
  | Some v => v
  | None => "YourModule"
  end.

Definition CONFIG_PATH : string :=
  "/data/adb/modules/" ++ MODULE_NAME ++ "/config.conf".

Definition or_none (s : string) : option string :=
  if truthy s then Some s else None.

Definition try_cmds (cmd : string) (use_su : bool) : list (list string) :=
  ((if use_su then [["su"; "-c"; cmd]] else []) ++ [["sh"; "-c"; cmd]])%list.

(** The [for c in try_cmds] loop of [run_cmd], with the [return] after
    it. *)
Fixpoint run_loop (cs : list (list string)) (st : State)
  : CommandResult * State :=
  match cs with
  | [] => (("", Some "Command failed", 1%Z), st)
  | c :: rest =>
      match run c st with
      | (Completed returncode stdout stderr, st') =>
          if (returncode =? 0)%Z
          then ((strip stdout, or_none (strip stderr), returncode), st')
          else run_loop rest st'
      | (FileNotFoundError, st') => run_loop rest st'
      | (OtherException, st') => run_loop rest st'
      end
  end.

Definition run_cmd (cmd : string) (use_su : bool) (st : State)
  : CommandResult * State :=
  run_loop (try_cmds cmd use_su) st.

(** [line.strip().startswith("mode=")] *)
Definition is_mode_line (line : string) : bool :=
  startswith (strip line) "mode=".

(** The loop of [read_config_mode]; [split("=", 1)[1]] raises when the
    list has one element. *)
Fixpoint scan_mode (lines : list string) : res (option string) :=
  match lines with
  | [] => Ret None
  | line :: rest =>
      let line := strip line in
      if startswith line "mode=" then
        match nth_error (split1 "=" line) 1 with
        | Some v => Ret (Some (strip v))
        | None => Raise IndexError
        end
      else scan_mode rest
  end.

Definition read_config_mode (st : State) : res (option string) * State :=
  let '((out, _, code), st1) := run_cmd ("cat " ++ CONFIG_PATH) true st in
  if negb (code =? 0)%Z || negb (truthy out) then (Ret None, st1)
  else (scan_mode (splitlines out), st1).

(** [repr(s)] *)
Definition sh_escape (s : string) : string := repr s.

(** [f"mode={new_mode}"] *)
Definition mode_line (new_mode : string) : string := "mode=" ++ new_mode.

(** One turn of the loop of [write_config_mode] on
    [(new_lines, updated)]. *)
Definition rewrite_step (new_mode : string)
  (acc : list string * bool) (line : string) : list string * bool :=
  let (new_lines, updated) := acc in
  if is_mode_line line then ((new_lines ++ [mode_line new_mode])%list, true)
  else ((new_lines ++ [line])%list, updated).

(** [content] as [write_config_mode] assembles it from the result of
    the [cat] (lines 65 to 81). *)
Definition updated_content (new_mode out : string) (code : Z) : string :=
  if (code =? 0)%Z && truthy out then
    let lines := splitlines out in
    let (new_lines, updated) :=
      fold_left (rewrite_step new_mode) lines ([], false) in
    let new_lines :=
      if updated then new_lines
      else (new_lines ++ [mode_line new_mode])%list in
    join nl new_lines ++ nl
  else mode_line new_mode ++ nl.

Definition echo_cmd (content : string) : string :=
  "printf '%s' " ++ sh_escape content ++ " > " ++ CONFIG_PATH.

Definition write_config_mode (new_mode : string) (st : State)
  : res bool * State :=
  if negb (in_modes new_mode) then
    (Raise (ValueError "Mode harus 'otomatis' atau 'statis'"), st)
  else
    let '((out, _, code), st1) := run_cmd ("cat " ++ CONFIG_PATH) true st in
    let content := updated_content new_mode out code in
    let '((_, _, code2), st2) := run_cmd (echo_cmd content) true st1 in
    (Ret (code2 =? 0)%Z, st2).

Definition detect_binary (name : string) (st : State) : bool * State :=
  let '((out, _, code), st1) := run_cmd ("which " ++ name) true st in
  ((code =? 0)%Z && truthy out, st1).

Definition getprop (prop : string) (st : State) : option string * State :=
  let (found, st1) := detect_binary "getprop" st in
  if found then
    let '((out, _, code), st2) := run_cmd ("getprop " ++ prop) true st1 in
    if (code =? 0)%Z && truthy out then (Some out, st2) else (None, st2)
  else (None, st1).

Definition placeholder : string := "Tidak tersedia".

(** [live or os.getenv(name) or "Tidak tersedia"], where [live] is
    absent or not empty. *)
Definition or_env (live : option string) (name : string) : string :=
  match live with
  | Some v => v
  | None =>
      match getenv name with
      | Some e => if truthy e then e else placeholder
      | None => placeholder
      end
  end.

(** The loop over the lines of [/proc/meminfo]; [line.split()[1]] raises
    when the line has one word, which the caller swallows. *)
Fixpoint scan_meminfo (lines : list string) : option string :=
  match lines with
  | [] => None
  | line :: rest =>
      if startswith line "MemTotal:" then nth_error (split line) 1
      else scan_meminfo rest
  end.

Definition get_device_info (st : State) : DeviceInfo * State :=
  let (p_model, st1) := getprop "ro.product.model" st in
  let model := or_env p_model "DEVICE_MODEL" in
  let (p_board, st2) := getprop "ro.product.board" st1 in
  let board := or_env p_board "DEVICE_BOARD" in
  let (p_brand, st3) := getprop "ro.product.manufacturer" st2 in
  let brand := or_env p_brand "DEVICE_BRAND" in
  let (p_android, st4) := getprop "ro.build.version.release" st3 in
  let android := or_env p_android "DEVICE_ANDROID" in
  let '((kernel_out, _, _), st5) := run_cmd "uname -r" false st4 in
  let kernel := if truthy kernel_out then kernel_out else placeholder in
  let (p_cpu, st6) := getprop "ro.hardware" st5 in
  let cpu := or_env p_cpu "DEVICE_CPU" in
  let '((free_out, _, code), st7) :=
    run_cmd "free | grep Mem | awk '{print $2}'" false st6 in
  let ram_kb :=
    if (code =? 0)%Z && truthy free_out then Some (strip free_out)
    else match open_read "/proc/meminfo" (world st7) with
         | Some text => scan_meminfo (readlines text)
         | None => None
         end in
  let ram :=
    match ram_kb with
    | Some kb => if truthy kb then kb ++ " kB" else placeholder
    | None => placeholder
    end in
  ({| model := model; board := board; brand := brand;
      android := android; kernel := kernel; cpu := cpu; ram := ram |},
   st7).

(** The bullet of the source is the single code point U+2022, which is
    outside the range of [ascii].  It stands here as the three bytes of
    its UTF-8 encoding, so a line of [pretty] is two characters longer
    here than in Python; no property below depends on the length or the
    offsets of these lines. *)
Definition bullet : string :=
  String (chr 226) (String (chr 128) (String (chr 162) EmptyString)).

Definition device_info (st : State)
  : Response (DeviceInfo * list string) * State :=
  let (info, st1) := get_device_info st in
  let pretty :=
    [ bullet ++ " Model      : " ++ model info;
      bullet ++ " Board      : " ++ board info;
      bullet ++ " Brand      : " ++ brand info;
      bullet ++ " Android    : " ++ android info;
      bullet ++ " Kernel     : " ++ kernel info;
      bullet ++ " CPU        : " ++ cpu info;
      bullet ++ " RAM        : " ++ ram info ] in
  (OK (info, pretty), st1).

(** The body is [{"mode": status, "config_path": CONFIG_PATH}]. *)
Definition get_mode (st : State) : Response (string * string) * State :=
  match read_config_mode st with
  | (Raise e, st1) => (Uncaught e, st1)
  | (Ret mode, st1) =>
      let status :=
        match mode with
        | Some m => if in_modes m then m else "unknown"
        | None => "unknown"
        end in
      (OK (status, CONFIG_PATH), st1)
  end.

(** The body is [{"ok": True, "mode": mode}]. *)
Definition set_mode (payload_mode : string) (st : State)
  : Response (bool * string) * State :=
  let mode := strip (lower payload_mode) in
  if negb (in_modes mode) then
    (HTTPException 400 "Mode harus 'otomatis' atau 'statis'", st)
  else
    match write_config_mode mode st with
    | (Raise e, st1) => (Uncaught e, st1)
    | (Ret success, st1) =>
        if negb success then
          (HTTPException 500
             "Gagal menulis file konfigurasi. Pastikan perangkat sudah root dan path benar.",
           st1)
        else (OK (true, mode), st1)
    end.





End Backend.

(** ** A device to run the program on

    A phone with one file that changes, an optional [su], and a POSIX
    shell reduced to the command lines the program builds.  Inside single
    quotes the shell takes every character as it stands, the backslash
    too, and [printf '%s'] writes its argument as it stands.  A command
    line outside this fragment is looked up in a table and fails when it
    is not there: on such lines the model says nothing about a real
    shell.

    The write command is inside the fragment when the content holds no
    single quote: [repr] then wraps it in single quotes, with none in
    between.  For a content with a single quote [repr] uses double
    quotes, or leaves the quote behind a backslash, and a real shell
    expands or splits what follows; the phone here only answers that it
    does not know the line, so that such a write fails on it whatever a
    real shell would do.  The theorems that range over the files of the
    phone are therefore stated for files without a single quote. *)

Module Device.

Record Phone : Type := {
  (** the environment of the server process *)
  environ : string -> option string;
  (** an [su] binary is installed *)
  rooted : bool;
  (** where the configuration file lives *)
  config_path : string;
  (** only root may read and write it *)
  root_only : bool;
  (** the other command lines that exit with status 0, and their output *)
  commands : list (string * string);
  (** the text of [/proc/meminfo], when it can be read *)
  meminfo : option string
}.

(** The text of the configuration file, when the file exists. *)
Definition File : Type := option string.

(** [strip_prefix p s] is [r] when [s = p ++ r]. *)
Fixpoint strip_prefix (p s : string) : option string :=
  match p, s with
  | EmptyString, _ => Some s
  | String a p', String b s' =>
      if Ascii.eqb a b then strip_prefix p' s' else None
  | String _ _, EmptyString => None
  end.

(** After an opening single quote: the quoted text up to the closing
    quote, and what follows it. *)
Fixpoint single_quoted (s : string) : option (string * string) :=
  match s with
  | EmptyString => None
  | String c s' =>
      if Ascii.eqb c squote then Some (EmptyString, s')
      else match single_quoted s' with
           | Some (text, r) => Some (String c text, r)
           | None => None
           end
  end.

Inductive Command : Type :=
| Cat (path : string)
| PrintfTo (text path : string)
| Other.

Definition parse (cmd : string) : Command :=
  match strip_prefix "cat " cmd with
  | Some path => Cat path
  | None =>
      match strip_prefix "printf '%s' '" cmd with
      | Some r =>
          match single_quoted r with
          | Some (text, r') =>
              match strip_prefix " > " r' with
              | Some path => PrintfTo text path
              | None => Other
              end
          | None => Other
          end
      | None => Other
      end
  end.

Fixpoint lookup (cmd : string) (table : list (string * string))
  : option string :=
  match table with
  | [] => None
  | (k, v) :: rest => if String.eqb k cmd then Some v else lookup cmd rest
  end.

Section Shell.

Variable ph : Phone.

Definition may_access (as_root : bool) (path : string) : bool :=
  String.eqb path (config_path ph) && (as_root || negb (root_only ph)).

Definition sh (as_root : bool) (cmd : string) (file : File)
  : Attempt * File :=
  match parse cmd with
  | Cat path =>
      match (if may_access as_root path then file else None) with
      | Some text => (Completed 0 text "", file)
      | None =>
          (Completed 1 "" ("cat: " ++ path ++ ": cannot open"), file)
      end
  | PrintfTo text path =>
      if may_access as_root path
      then (Completed 0 "" "", Some text)
      else (Completed 2 "" ("sh: cannot create " ++ path), file)
  | Other =>
      match lookup cmd (commands ph) with
      | Some out => (Completed 0 out "", file)
      | None => (Completed 127 "" ("sh: " ++ cmd ++ ": not found"), file)
      end
  end.

Definition exec (c : list string) (file : File) : Attempt * File :=
  match c with
  | [prog; flag; cmd] =>
      if String.eqb flag "-c" then
        if String.eqb prog "su" then
          if rooted ph then sh true cmd file
          else (FileNotFoundError, file)
        else if String.eqb prog "sh" then sh false cmd file
        else (FileNotFoundError, file)
      else (FileNotFoundError, file)
  | _ => (FileNotFoundError, file)
  end.

Definition host : Host :=
  {| World := File;
     subprocess_run := exec;
     getenv := environ ph;
     open_read := fun path _ =>
       if String.eqb path "/proc/meminfo" then meminfo ph else None |}.

(** The state in which [file] is on the phone and [sp] was spawned. *)
Definition state_of (file : File) (sp : list (list string)) : @State host :=
  {| world := file : @World host; spawned := sp |}.

(** The server starts: [file] is on the phone, nothing was spawned. *)
Definition boot (file : File) : @State host := state_of file [].

(** The configuration file in a state of the server. *)
Definition config (st : @State host) : File := world st.

End Shell.

(** The lines of the configuration file, as [str.splitlines] gives
    them. *)
Definition file_lines (file : File) : list string :=
  match file with
  | Some text => splitlines text
  | None => []
  end.

(** A rooted phone with nothing else on it and an empty environment;
    the module name is the default one. *)
Definition rooted_phone : Phone :=
  {| environ := fun _ => None; rooted := true;
     config_path := "/data/adb/modules/YourModule/config.conf";
     root_only := true; commands := []; meminfo := None |}.

(** A machine without [su] and without [getprop], where [uname] and
    [/proc/meminfo] answer. *)
Definition linux_box : Phone :=
  {| environ := fun _ => None; rooted := false;
     config_path := "/data/adb/modules/YourModule/config.conf";
     root_only := true;
     commands := [("uname -r", "5.10.0" ++ nl)];
     meminfo := Some ("MemTotal:        2048 kB" ++ nl) |}.

(** A machine on which no command answers and every environment
    variable is set. *)
Definition all_set : Phone :=
  {| environ := fun _ => Some "custom"; rooted := false;
     config_path := "/data/adb/modules/custom/config.conf";
     root_only := true; commands := []; meminfo := None |}.

(** The file of the order-preservation example. *)
Definition three_lines : string :=
  "foo=1" ++ nl ++ "mode=otomatis" ++ nl ++ "bar=2" ++ nl.

(** A file with two mode lines. *)
Definition two_modes : string :=
  "mode=otomatis" ++ nl ++ "debug=1" ++ nl ++ "mode=otomatis" ++ nl.

End Device.

(** ** Notions used to state the properties *)

(** What the loop of [write_config_mode] makes of one line. *)
Definition replace_mode (new_mode line : string) : string :=
  if is_mode_line line then mode_line new_mode else line.

(** The lines [write_config_mode] assembles from the lines it read. *)
Definition rewritten (new_mode : string) (lines : list string)
  : list string :=
  (map (replace_mode new_mode) lines
     ++ if existsb is_mode_line lines then [] else [mode_line new_mode])%list.

Definition count_mode_lines (lines : list string) : nat :=
  List.length (filter is_mode_line lines).

(** The lines [write_config_mode] works on, given the result of the
    [cat]: none when the command failed or printed nothing. *)
Definition lines_read (out : string) (code : Z) : list string :=
  if (code =? 0)%Z && truthy out then splitlines out else [].

(** The rewriting in the words of the specification: the first mode line
    is replaced, the lines after it are kept, and a mode line is appended
    when there was none. *)
Fixpoint spec_replace_first (new_mode : string) (lines : list string)
  : list string :=
  match lines with
  | [] => [mode_line new_mode]
  | line :: rest =>
      if is_mode_line line then mode_line new_mode :: rest
      else line :: spec_replace_first new_mode rest
  end.

(** The first line begins, and the last line ends, with a character that
    is not a space. *)
Definition framed (L : list string) : Prop :=
  (exists h rest, L = h :: rest /\ starts_solid h = true) /\
  (exists pre t, L = (pre ++ [t])%list /\ ends_solid t = true).

(** What [run_cmd] returns when no attempt was accepted. *)
Definition command_failed : CommandResult :=
  ("", Some "Command failed", 1%Z).

(** The trimmed output of an attempt that completed with exit status 0;
    empty for any other attempt. *)
Definition accepted_output (a : Attempt) : string :=
  match a with
  | Completed returncode stdout _ =>
      if (returncode =? 0)%Z then strip stdout else ""
  | _ => ""
  end.

(** The three-tier rule: the live value when there is one, else the
    environment variable when it is set and not empty, else the
    placeholder. *)
Inductive resolves (live env : option string) : string -> Prop :=
| resolves_live v :
    live = Some v -> resolves live env v
| resolves_env e :
    live = None -> env = Some e -> truthy e = true -> resolves live env e
| resolves_placeholder :
    live = None -> env = None \/ env = Some "" ->
    resolves live env "Tidak tersedia".

(** Every field holds the placeholder. *)
Definition all_placeholder (info : DeviceInfo) : Prop :=
  model info = "Tidak tersedia" /\ board info = "Tidak tersedia" /\
  brand info = "Tidak tersedia" /\ android info = "Tidak tersedia" /\
  kernel info = "Tidak tersedia" /\ cpu info = "Tidak tersedia" /\
  ram info = "Tidak tersedia".

(** The environment variables [get_device_info] consults. *)
Definition device_variables : list string :=
  ["DEVICE_MODEL"; "DEVICE_BOARD"; "DEVICE_BRAND"; "DEVICE_ANDROID";
   "DEVICE_CPU"].

(** The text of the file holds no single quote, or there is no file. *)
Definition no_single_quote (file : Device.File) : Prop :=
  forall text, file = Some text -> contains squote text = false.

(** The command line of a spawned [su -c cmd] or [sh -c cmd]. *)
Definition command_of (c : list string) : string := nth 2 c "".

(** How many of the spawned processes in [l] run the command line
    [cmd]. *)
Definition runs_of (cmd : string) (l : list (list string)) : nat :=
  List.length (filter (fun c => String.eqb (command_of c) cmd) l).

(** The text is empty, or begins and ends with characters that are not
    spaces: [strip] leaves it as it is. *)
Definition trimmed (s : string) : Prop := strip s = s.

(** The attempt completed with exit status 0. *)
Definition zero_exit (a : Attempt) : bool :=
  match a with
  | Completed returncode _ _ => (returncode =? 0)%Z
  | _ => false
  end.

(** The state after the strategies [cs] were tried in order and none
    completed with exit status 0; nothing when one of them did. *)
Fixpoint fail_through {host : Host} (cs : list (list string)) (st : State)
  : option State :=
  match cs with
  | [] => Some st
  | c :: rest =>
      let (a, st') := run c st in
      if zero_exit a then None else fail_through rest st'
  end.

(** * Facts about Python text *)

Section PyFacts.

Lemma append_assoc (a b c : string) : (a ++ b) ++ c = a ++ (b ++ c).
Proof.
  induction a as [|x a IH]; simpl; [reflexivity|].
  now rewrite IH.
Qed.

Lemma append_empty_r (a : string) : a ++ "" = a.
Proof.
  induction a as [|x a IH]; simpl; [reflexivity|].
  now rewrite IH.
Qed.

Lemma linebreak_isspace (c : ascii) :
  is_linebreak c = true -> isspace c = true.
Proof.
  unfold is_linebreak, isspace, within.
  intros H.
  repeat (apply orb_prop in H; destruct H as [H|H]);
    try (apply andb_prop in H; destruct H as [H1 H2]);
    rewrite ?N.leb_le, ?N.eqb_eq in *;
    repeat rewrite orb_true_iff; repeat rewrite andb_true_iff;
    rewrite ?N.leb_le, ?N.eqb_eq; lia.
Qed.

Lemma all_chars_app p (a b : string) :
  all_chars p (a ++ b) = all_chars p a && all_chars p b.
Proof.
  induction a as [|x a IH]; simpl; [reflexivity|].
  now rewrite IH, andb_assoc.
Qed.

Lemma one_line_app (a b : string) :
  one_line (a ++ b) = one_line a && one_line b.
Proof. apply all_chars_app. Qed.

(** A stretch without line boundary is read into the current line. *)
Lemma lines_from_stretch (l : string) :
  forall cur rest,
    one_line l = true ->
    lines_from cur false (l ++ rest) = lines_from (cur ++ l) false rest.
Proof.
  induction l as [|c l IH]; intros cur rest Hl; simpl.
  - now rewrite append_empty_r.
  - unfold one_line in Hl. simpl in Hl.
    apply andb_prop in Hl. destruct Hl as [Hc Hl].
    apply negb_true_iff in Hc. rewrite Hc.
    rewrite IH by exact Hl.
    now rewrite append_assoc.
Qed.

Lemma lines_from_nl (cur rest : string) :
  lines_from cur false (nl ++ rest) = cur :: lines_from "" false rest.
Proof. reflexivity. Qed.

(** [splitlines] undoes [join] followed by a line feed. *)
Lemma splitlines_join_nl (L : list string) :
  forall x,
    Forall (fun l => one_line l = true) (x :: L) ->
    splitlines (join nl (x :: L) ++ nl) = x :: L.
Proof.
  unfold splitlines.
  induction L as [|y L IH]; intros x HF.
  - inversion HF; subst. simpl.
    rewrite lines_from_stretch by assumption. simpl.
    reflexivity.
  - inversion HF as [|? ? Hx HL]; subst.
    change (join nl (x :: y :: L)) with (x ++ nl ++ join nl (y :: L)).
    rewrite !append_assoc.
    rewrite lines_from_stretch by assumption.
    rewrite lines_from_nl. simpl (append "" x).
    f_equal. apply IH. exact HL.
Qed.

(** The same without the final line feed, when the last line is not
    empty. *)
Lemma splitlines_join (L : list string) :
  forall x,
    Forall (fun l => one_line l = true) (x :: L) ->
    is_empty (last (x :: L) "") = false ->
    splitlines (join nl (x :: L)) = x :: L.
Proof.
  unfold splitlines.
  induction L as [|y L IH]; intros x HF Hlast.
  - inversion HF; subst. simpl in *.
    rewrite <- (append_empty_r x) at 1.
    rewrite lines_from_stretch by assumption. simpl.
    now rewrite Hlast.
  - inversion HF as [|? ? Hx HL]; subst.
    change (join nl (x :: y :: L)) with (x ++ nl ++ join nl (y :: L)).
    rewrite lines_from_stretch by assumption.
    rewrite lines_from_nl. simpl (append "" x).
    f_equal. apply IH; assumption.
Qed.

Lemma one_line_snoc (cur : string) (c : ascii) :
  one_line cur = true -> is_linebreak c = false ->
  one_line (cur ++ String c "") = true.
Proof.
  intros Hc Hb. unfold one_line in *.
  rewrite all_chars_app, Hc. simpl. now rewrite Hb.
Qed.

(** The lines [splitlines] returns hold no line boundary. *)
Lemma lines_from_one_line (s : string) :
  forall cur b,
    one_line cur = true ->
    Forall (fun l => one_line l = true) (lines_from cur b s).
Proof.
  induction s as [|c s IH]; intros cur b Hcur; simpl.
  - destruct (is_empty cur); auto.
  - destruct (b && Ascii.eqb c LF).
    + now apply IH.
    + destruct (is_linebreak c) eqn:Hb.
      * constructor; [assumption|]. now apply IH.
      * apply IH. now apply one_line_snoc.
Qed.

Lemma splitlines_one_line (s : string) :
  Forall (fun l => one_line l = true) (splitlines s).
Proof. now apply lines_from_one_line. Qed.

(** *** Trimming *)

Lemma lstrip_solid (s : string) : starts_solid s = true -> lstrip s = s.
Proof.
  destruct s as [|c s]; simpl; [discriminate|].
  intros H. apply negb_true_iff in H. now rewrite H.
Qed.

Lemma lstrip_shape (s : string) :
  lstrip s = "" \/ starts_solid (lstrip s) = true.
Proof.
  induction s as [|c s IH]; simpl; [now left|].
  destruct (isspace c) eqn:Hc; [exact IH|].
  right. simpl. now rewrite Hc.
Qed.

Lemma rstrip_shape (s : string) :
  rstrip s = "" \/ ends_solid (rstrip s) = true.
Proof.
  induction s as [|c s IH]; simpl; [now left|].
  destruct (rstrip s) as [|d r] eqn:Hr; simpl.
  - destruct (isspace c) eqn:Hc; simpl; [now left|].
    right. now rewrite Hc.
  - rewrite andb_false_r. right. simpl.
    destruct IH as [IH|IH]; [discriminate|exact IH].
Qed.

Lemma rstrip_starts_solid (s : string) :
  starts_solid s = true ->
  starts_solid (rstrip s) = true /\ is_empty (rstrip s) = false.
Proof.
  destruct s as [|c s]; simpl; [discriminate|].
  intros H. apply negb_true_iff in H. rewrite H. simpl. rewrite H.
  now split.
Qed.

(** What [strip] returns is empty, or begins and ends with characters
    that are not spaces. *)
Lemma strip_shape (s : string) :
  strip s = "" \/
  (starts_solid (strip s) = true /\ ends_solid (strip s) = true).
Proof.
  unfold strip.
  destruct (lstrip_shape s) as [H|H].
  - rewrite H. now left.
  - right. destruct (rstrip_starts_solid _ H) as [H1 H2].
    split; [exact H1|].
    destruct (rstrip_shape (lstrip s)) as [E|E]; [|exact E].
    rewrite E in H2. discriminate.
Qed.

Lemma ends_solid_nonempty (s : string) :
  ends_solid s = true -> is_empty s = false.
Proof. destruct s; simpl; [discriminate|reflexivity]. Qed.

Lemma rstrip_solid_nl (s : string) :
  ends_solid s = true -> rstrip (s ++ nl) = s.
Proof.
  induction s as [|c s IH]; [discriminate|].
  intros H. destruct s as [|d s].
  - simpl in *. apply negb_true_iff in H. now rewrite H.
  - change (ends_solid (String c (String d s)))
      with (ends_solid (String d s)) in H.
    change (rstrip (String c (String d s) ++ nl))
      with (let r := rstrip (String d s ++ nl) in
            if isspace c && is_empty r then "" else String c r).
    rewrite (IH H). simpl. now rewrite andb_false_r.
Qed.

Lemma starts_solid_app (a b : string) :
  starts_solid a = true -> starts_solid (a ++ b) = true.
Proof. destruct a; simpl; [discriminate|auto]. Qed.

Lemma ends_solid_app (a b : string) :
  ends_solid b = true -> ends_solid (a ++ b) = true.
Proof.
  intros H. induction a as [|c a IH]; simpl; [exact H|].
  destruct (a ++ b) eqn:E; [|exact IH].
  destruct a; simpl in E; [|discriminate].
  subst. discriminate.
Qed.

Lemma ends_solid_snoc (a : string) (c : ascii) :
  ends_solid (a ++ String c "") = negb (isspace c).
Proof.
  induction a as [|d a IH]; simpl; [reflexivity|].
  destruct (a ++ String c "") eqn:E; [|exact IH].
  destruct a; discriminate.
Qed.

(** The first line of a text that begins with a solid character
    begins with one. *)
Lemma lines_from_head (s : string) :
  forall cur b,
    is_empty cur = false ->
    exists t rest, lines_from cur b s = (cur ++ t) :: rest.
Proof.
  induction s as [|c s IH]; intros cur b Hcur; simpl.
  - rewrite Hcur. exists "", []. now rewrite append_empty_r.
  - destruct (b && Ascii.eqb c LF); [now apply IH|].
    destruct (is_linebreak c).
    + exists "", (lines_from "" (Ascii.eqb c CR) s).
      now rewrite append_empty_r.
    + destruct (IH (cur ++ String c "") false) as (t & rest & E).
      { now destruct cur. }
      exists (String c t), rest. rewrite E. now rewrite append_assoc.
Qed.

Lemma splitlines_nonempty (s : string) :
  is_empty s = false -> splitlines s <> [].
Proof.
  unfold splitlines. destruct s as [|c s]; [discriminate|]. intros _.
  simpl. destruct (is_linebreak c); [discriminate|].
  destruct (lines_from_head s (String c "") false eq_refl)
    as (t & rest & E).
  rewrite E. discriminate.
Qed.

Lemma splitlines_head_solid (s : string) :
  starts_solid s = true ->
  exists h rest, splitlines s = h :: rest /\ starts_solid h = true.
Proof.
  destruct s as [|c s]; simpl; [discriminate|]. intros Hc.
  unfold splitlines. simpl.
  destruct (is_linebreak c) eqn:Hb.
  - apply linebreak_isspace in Hb. rewrite Hb in Hc. discriminate.
  - destruct (lines_from_head s (String c "") false eq_refl)
      as (t & rest & E).
    exists (String c t), rest. split; [exact E|exact Hc].
Qed.

(** The last line of a text that ends with a solid character ends
    with one. *)
Lemma lines_from_last (s : string) :
  forall cur b,
    ends_solid s = true ->
    exists pre t,
      lines_from cur b s = (pre ++ [t])%list /\ ends_solid t = true.
Proof.
  induction s as [|c s IH]; intros cur b H; [discriminate|].
  destruct s as [|d s].
  - simpl in H. simpl.
    assert (Hb : is_linebreak c = false).
    { destruct (is_linebreak c) eqn:Hb; [|reflexivity].
      apply linebreak_isspace in Hb. rewrite Hb in H. discriminate. }
    assert (Hlf : Ascii.eqb c LF = false).
    { destruct (Ascii.eqb_spec c LF) as [->|]; [|reflexivity].
      discriminate. }
    rewrite Hlf, andb_false_r, Hb.
    exists [], (cur ++ String c ""). split.
    + now destruct cur.
    + now rewrite ends_solid_snoc.
  - change (ends_solid (String c (String d s)))
      with (ends_solid (String d s)) in H.
    remember (String d s) as s' eqn:Es. simpl.
    destruct (b && Ascii.eqb c LF); [now apply IH|].
    destruct (is_linebreak c).
    + destruct (IH "" (Ascii.eqb c CR) H) as (pre & t & E & Ht).
      exists (cur :: pre), t. rewrite E. now split.
    + now apply IH.
Qed.

Lemma join_head_solid (h x : string) (rest : list string) :
  starts_solid h = true -> starts_solid (join nl (h :: rest) ++ x) = true.
Proof.
  intros H. destruct rest as [|y rest].
  - simpl. now apply starts_solid_app.
  - change (join nl (h :: y :: rest)) with (h ++ nl ++ join nl (y :: rest)).
    rewrite append_assoc. now apply starts_solid_app.
Qed.

Lemma join_last_solid (pre : list string) (t : string) :
  ends_solid t = true -> ends_solid (join nl (pre ++ [t])) = true.
Proof.
  intros H. induction pre as [|x pre IH]; [exact H|].
  destruct pre as [|y pre].
  - change (ends_solid (x ++ nl ++ t) = true).
    now do 2 apply ends_solid_app.
  - change (ends_solid (x ++ nl ++ join nl ((y :: pre) ++ [t])) = true).
    now do 2 apply ends_solid_app.
Qed.

Lemma rstrip_solid (s : string) : ends_solid s = true -> rstrip s = s.
Proof.
  induction s as [|c s IH]; [discriminate|].
  intros H. destruct s as [|d s].
  - simpl in *. apply negb_true_iff in H. now rewrite H.
  - change (ends_solid (String c (String d s)))
      with (ends_solid (String d s)) in H.
    change (rstrip (String c (String d s)))
      with (let r := rstrip (String d s) in
            if isspace c && is_empty r then "" else String c r).
    rewrite (IH H). simpl. now rewrite andb_false_r.
Qed.

Lemma strip_idem (s : string) : strip (strip s) = strip s.
Proof.
  destruct (strip_shape s) as [E|[H1 H2]].
  - rewrite E. reflexivity.
  - unfold strip at 1. rewrite lstrip_solid by exact H1.
    now apply rstrip_solid.
Qed.

End PyFacts.

(** * The content a write assembles *)

Section Content.

Lemma fold_rewrite_step (m : string) (lines : list string) :
  forall acc u,
    fold_left (rewrite_step m) lines (acc, u)
    = ((acc ++ map (replace_mode m) lines)%list,
       u || existsb is_mode_line lines).
Proof.
  induction lines as [|l lines IH]; intros acc u; simpl.
  - now rewrite app_nil_r, orb_false_r.
  - unfold replace_mode at 1. destruct (is_mode_line l); simpl;
      rewrite IH, <- app_assoc; simpl; [|reflexivity].
    now rewrite orb_true_r.
Qed.

Lemma updated_content_lines (m out : string) (code : Z) :
  updated_content m out code
  = join nl (rewritten m (lines_read out code)) ++ nl.
Proof.
  unfold updated_content, lines_read, rewritten.
  destruct ((code =? 0)%Z && truthy out); [|reflexivity].
  rewrite fold_rewrite_step. simpl.
  destruct (existsb is_mode_line (splitlines out)); [|reflexivity].
  now rewrite app_nil_r.
Qed.

Lemma in_modes_cases (m : string) :
  in_modes m = true -> m = "otomatis" \/ m = "statis".
Proof.
  unfold in_modes. intros H. apply orb_prop in H.
  destruct H as [H|H]; apply String.eqb_eq in H; auto.
Qed.

Lemma mode_line_shape (m : string) :
  in_modes m = true ->
  one_line (mode_line m) = true /\ is_mode_line (mode_line m) = true /\
  starts_solid (mode_line m) = true /\ ends_solid (mode_line m) = true.
Proof.
  intros H. destruct (in_modes_cases m H) as [->| ->];
    repeat split; reflexivity.
Qed.

Lemma replace_mode_is_mode_line (m l : string) :
  in_modes m = true ->
  is_mode_line (replace_mode m l) = is_mode_line l.
Proof.
  intros H. unfold replace_mode.
  destruct (is_mode_line l) eqn:E; [|exact E].
  now apply mode_line_shape.
Qed.

Lemma replace_mode_idem (m l : string) :
  in_modes m = true ->
  replace_mode m (replace_mode m l) = replace_mode m l.
Proof.
  intros H. unfold replace_mode at 1.
  rewrite replace_mode_is_mode_line by exact H.
  unfold replace_mode. now destruct (is_mode_line l).
Qed.

Lemma existsb_replace_mode (m : string) (lines : list string) :
  in_modes m = true ->
  existsb is_mode_line (map (replace_mode m) lines)
  = existsb is_mode_line lines.
Proof.
  intros H. induction lines as [|l lines IH]; simpl; [reflexivity|].
  now rewrite IH, replace_mode_is_mode_line.
Qed.

(** Whatever was read, the assembled lines hold a mode line. *)
Lemma rewritten_has_mode (m : string) (lines : list string) :
  in_modes m = true -> existsb is_mode_line (rewritten m lines) = true.
Proof.
  intros H. unfold rewritten. rewrite existsb_app, existsb_replace_mode by exact H.
  destruct (existsb is_mode_line lines); [reflexivity|].
  simpl. destruct (mode_line_shape m H) as (_ & -> & _). reflexivity.
Qed.

Lemma rewritten_idem (m : string) (lines : list string) :
  in_modes m = true -> rewritten m (rewritten m lines) = rewritten m lines.
Proof.
  intros H. unfold rewritten at 1.
  rewrite rewritten_has_mode, app_nil_r by exact H.
  unfold rewritten. rewrite map_app, map_map.
  f_equal.
  - apply map_ext. intros l. now apply replace_mode_idem.
  - destruct (existsb is_mode_line lines); [reflexivity|]. simpl.
    unfold replace_mode.
    destruct (mode_line_shape m H) as (_ & -> & _). reflexivity.
Qed.

Lemma count_replace_mode (m : string) (lines : list string) :
  in_modes m = true ->
  count_mode_lines (map (replace_mode m) lines) = count_mode_lines lines.
Proof.
  intros H. unfold count_mode_lines.
  induction lines as [|l lines IH]; simpl; [reflexivity|].
  rewrite replace_mode_is_mode_line by exact H.
  destruct (is_mode_line l); simpl; now rewrite IH.
Qed.

Lemma count_zero_existsb (lines : list string) :
  existsb is_mode_line lines = false <-> count_mode_lines lines = 0.
Proof.
  unfold count_mode_lines.
  induction lines as [|l lines IH]; simpl; [tauto|].
  destruct (is_mode_line l); simpl; [|exact IH].
  split; discriminate.
Qed.

Lemma count_rewritten (m : string) (lines : list string) :
  in_modes m = true ->
  count_mode_lines (rewritten m lines)
  = Nat.max 1 (count_mode_lines lines).
Proof.
  intros H. unfold rewritten.
  unfold count_mode_lines at 1. rewrite filter_app, length_app.
  fold (count_mode_lines (map (replace_mode m) lines)).
  rewrite count_replace_mode by exact H.
  destruct (existsb is_mode_line lines) eqn:E.
  - simpl. destruct (count_mode_lines lines) eqn:C.
    + apply count_zero_existsb in C. congruence.
    + lia.
  - apply count_zero_existsb in E. rewrite E. simpl.
    destruct (mode_line_shape m H) as (_ & -> & _). reflexivity.
Qed.

Lemma rewritten_one_line (m : string) (lines : list string) :
  in_modes m = true ->
  Forall (fun l => one_line l = true) lines ->
  Forall (fun l => one_line l = true) (rewritten m lines).
Proof.
  intros H HF. unfold rewritten. apply Forall_app. split.
  - apply Forall_map. eapply Forall_impl; [|exact HF].
    intros l Hl. unfold replace_mode.
    destruct (is_mode_line l); [now apply mode_line_shape|exact Hl].
  - destruct (existsb is_mode_line lines); constructor; [|constructor].
    now apply mode_line_shape.
Qed.

Lemma rewritten_nonempty (m : string) (lines : list string) :
  rewritten m lines <> [].
Proof.
  unfold rewritten. destruct lines as [|l lines]; simpl; discriminate.
Qed.

Lemma lines_read_one_line (out : string) (code : Z) :
  Forall (fun l => one_line l = true) (lines_read out code).
Proof.
  unfold lines_read. destruct ((code =? 0)%Z && truthy out).
  - apply splitlines_one_line.
  - constructor.
Qed.

(** The lines of the assembled content are the rewritten lines. *)
Lemma splitlines_updated_content (m out : string) (code : Z) :
  in_modes m = true ->
  splitlines (updated_content m out code)
  = rewritten m (lines_read out code).
Proof.
  intros H. rewrite updated_content_lines.
  pose proof (rewritten_one_line m _ H (lines_read_one_line out code)) as HF.
  pose proof (rewritten_nonempty m (lines_read out code)) as HN.
  destruct (rewritten m (lines_read out code)) as [|x L]; [congruence|].
  now apply splitlines_join_nl.
Qed.

Lemma lines_read_framed (raw : string) (code : Z) :
  lines_read (strip raw) code = [] \/ framed (lines_read (strip raw) code).
Proof.
  unfold lines_read.
  destruct ((code =? 0)%Z && truthy (strip raw)) eqn:E; [|now left].
  right. apply andb_prop in E. destruct E as [_ E].
  destruct (strip_shape raw) as [Z|[H1 H2]].
  - rewrite Z in E. discriminate.
  - split.
    + now apply splitlines_head_solid.
    + now apply lines_from_last.
Qed.

Lemma replace_mode_starts_solid (m l : string) :
  in_modes m = true -> starts_solid l = true ->
  starts_solid (replace_mode m l) = true.
Proof.
  intros H Hl. unfold replace_mode.
  destruct (is_mode_line l); [now apply mode_line_shape|exact Hl].
Qed.

Lemma replace_mode_ends_solid (m l : string) :
  in_modes m = true -> ends_solid l = true ->
  ends_solid (replace_mode m l) = true.
Proof.
  intros H Hl. unfold replace_mode.
  destruct (is_mode_line l); [now apply mode_line_shape|exact Hl].
Qed.

Lemma rewritten_framed (m : string) (L : list string) :
  in_modes m = true -> L = [] \/ framed L -> framed (rewritten m L).
Proof.
  intros H [->|[(h & rest & E1 & Hh) (pre & t & E2 & Ht)]].
  - unfold rewritten. simpl. split.
    + exists (mode_line m), []. split; [reflexivity|].
      now apply mode_line_shape.
    + exists [], (mode_line m). split; [reflexivity|].
      now apply mode_line_shape.
  - split.
    + exists (replace_mode m h).
      exists (map (replace_mode m) rest
                ++ if existsb is_mode_line L then []
                   else [mode_line m])%list.
      split; [|now apply replace_mode_starts_solid].
      unfold rewritten. rewrite E1 at 1. reflexivity.
    + unfold rewritten. destruct (existsb is_mode_line L).
      * exists (map (replace_mode m) pre), (replace_mode m t).
        split; [|now apply replace_mode_ends_solid].
        rewrite app_nil_r, E2, map_app. reflexivity.
      * exists (map (replace_mode m) L), (mode_line m).
        split; [reflexivity|now apply mode_line_shape].
Qed.

(** Trimming the content of framed lines removes its final line feed
    and nothing else, and the lines are read back from it. *)
Lemma framed_round_trip (L : list string) :
  framed L -> Forall (fun l => one_line l = true) L ->
  strip (join nl L ++ nl) = join nl L /\
  truthy (join nl L) = true /\
  splitlines (join nl L) = L.
Proof.
  intros [(h & rest & E1 & Hh) (pre & t & E2 & Ht)] HF.
  assert (Hend : ends_solid (join nl L) = true).
  { rewrite E2. now apply join_last_solid. }
  split; [|split].
  - unfold strip. rewrite lstrip_solid.
    + now apply rstrip_solid_nl.
    + rewrite E1. now apply join_head_solid.
  - unfold truthy. now rewrite ends_solid_nonempty.
  - rewrite E1 in HF |- *. apply splitlines_join; [exact HF|].
    rewrite <- E1, E2, last_last. now apply ends_solid_nonempty.
Qed.

(** Assembling again from the trimmed content gives the content
    again. *)
Lemma updated_content_idem (m raw : string) (code : Z) :
  in_modes m = true ->
  let content := updated_content m (strip raw) code in
  updated_content m (strip content) 0 = content.
Proof.
  intros H content. subst content.
  rewrite (updated_content_lines m (strip raw) code).
  set (L := rewritten m (lines_read (strip raw) code)).
  assert (HL : framed L).
  { apply rewritten_framed; [exact H|apply lines_read_framed]. }
  assert (HF : Forall (fun l => one_line l = true) L).
  { apply rewritten_one_line; [exact H|apply lines_read_one_line]. }
  destruct (framed_round_trip L HL HF) as (E1 & E2 & E3).
  rewrite E1, updated_content_lines.
  unfold lines_read. rewrite E2. simpl. rewrite E3.
  unfold L. now rewrite rewritten_idem.
Qed.

End Content.

(** * The command runner *)

Section Runner.

Context {host : Host}.

Lemma run_spawned (c : list string) (st : State) :
  spawned (snd (run c st)) = (spawned st ++ [c])%list.
Proof.
  unfold run. now destruct (subprocess_run c (world st)).
Qed.

Lemma run_loop_rejected (c : list string) (cs : list (list string))
  (st : State) :
  zero_exit (fst (run c st)) = false ->
  run_loop (c :: cs) st = run_loop cs (snd (run c st)).
Proof.
  simpl. destruct (run c st) as [[rc out err| |] st']; simpl; auto.
  intros ->. reflexivity.
Qed.

(** Strategies that fail are passed over. *)
Lemma run_loop_skip (pre : list (list string)) :
  forall cs st st1,
    fail_through pre st = Some st1 ->
    run_loop (pre ++ cs) st = run_loop cs st1.
Proof.
  induction pre as [|c pre IH]; intros cs st st1 H; simpl in H.
  - now inversion H.
  - destruct (run c st) as [a st'] eqn:E.
    destruct (zero_exit a) eqn:Z; [discriminate|].
    change ((c :: pre) ++ cs)%list with (c :: (pre ++ cs))%list.
    rewrite run_loop_rejected by now rewrite E.
    rewrite E. simpl. now apply IH.
Qed.

Lemma fail_through_spawned (cs : list (list string)) :
  forall st st',
    fail_through cs st = Some st' ->
    spawned st' = (spawned st ++ cs)%list.
Proof.
  induction cs as [|c cs IH]; intros st st' H; simpl in H.
  - inversion H. now rewrite app_nil_r.
  - pose proof (run_spawned c st) as S.
    destruct (run c st) as [a st1].
    destruct (zero_exit a); [discriminate|].
    rewrite (IH _ _ H). simpl in S. rewrite S.
    now rewrite <- app_assoc.
Qed.

Lemma run_loop_exhausted (cs : list (list string)) (st st' : State) :
  fail_through cs st = Some st' ->
  run_loop cs st = (command_failed, st').
Proof.
  intros H. rewrite <- (app_nil_r cs).
  rewrite (run_loop_skip cs [] st st' H). reflexivity.
Qed.

Lemma run_loop_accepted (pre post : list (list string)) (c : list string)
  (st st1 st2 : State) (out err : string) :
  fail_through pre st = Some st1 ->
  run c st1 = (Completed 0 out err, st2) ->
  run_loop (pre ++ c :: post) st
  = ((strip out, or_none (strip err), 0%Z), st2).
Proof.
  intros H E. rewrite (run_loop_skip pre _ st st1 H).
  simpl. now rewrite E.
Qed.

(** Either every strategy fails, or there is a first one that completes
    with exit status 0. *)
Lemma fail_through_or_accept (cs : list (list string)) :
  forall st,
    (exists st', fail_through cs st = Some st') \/
    (exists pre c post st1 out err st2,
        cs = (pre ++ c :: post)%list /\
        fail_through pre st = Some st1 /\
        run c st1 = (Completed 0 out err, st2)).
Proof.
  induction cs as [|c cs IH]; intros st.
  - left. now exists st.
  - simpl. destruct (run c st) as [a st1] eqn:E.
    destruct (zero_exit a) eqn:Z.
    + right. destruct a as [rc out err| |]; try discriminate.
      simpl in Z. apply Z.eqb_eq in Z. subst rc.
      exists [], c, cs, st, out, err, st1. now repeat split.
    + destruct (IH st1) as [[st' H]|(pre & c' & post & s1 & out & err & s2 & H1 & H2 & H3)].
      * left. now exists st'.
      * right. exists (c :: pre), c', post, s1, out, err, s2.
        repeat split; [now rewrite H1| |exact H3].
        simpl. now rewrite E, Z.
Qed.

(** What [run_cmd] spawns is a beginning of its list of strategies. *)
Lemma run_cmd_spawned (cmd : string) (use_su : bool) (st : State) :
  exists l post,
    try_cmds cmd use_su = (l ++ post)%list /\
    l <> [] /\
    spawned (snd (run_cmd cmd use_su st)) = (spawned st ++ l)%list.
Proof.
  unfold run_cmd.
  destruct (fail_through_or_accept (try_cmds cmd use_su) st)
    as [[st' H]|(pre & c & post & s1 & out & err & s2 & H1 & H2 & H3)].
  - exists (try_cmds cmd use_su), []. rewrite app_nil_r.
    rewrite (run_loop_exhausted _ _ _ H). simpl.
    repeat split; [|now apply fail_through_spawned].
    unfold try_cmds. now destruct use_su.
  - exists (pre ++ [c])%list, post. rewrite H1.
    rewrite (run_loop_accepted pre post c st s1 s2 out err H2 H3). simpl.
    repeat split.
    + now rewrite <- app_assoc.
    + now destruct pre.
    + pose proof (run_spawned c s1) as S. rewrite H3 in S. simpl in S.
      rewrite S, (fail_through_spawned _ _ _ H2).
      now rewrite <- app_assoc.
Qed.

End Runner.

(** * Reading the mode *)

Section Reader.

Context {host : Host}.

Lemma prefix_app (p s : string) :
  String.prefix p s = true <-> exists r, s = p ++ r.
Proof.
  revert s. induction p as [|a p IH]; intros [|b s]; simpl.
  - split; eauto.
  - split; eauto.
  - split; [discriminate|]. intros [r E]. discriminate.
  - destruct (ascii_dec a b) as [->|N].
    + split.
      * intros H. apply IH in H. destruct H as [r ->]. now exists r.
      * intros [r E]. inversion E. apply IH. now exists r.
    + split; [discriminate|]. intros [r E]. inversion E. congruence.
Qed.

Lemma is_mode_line_iff (l : string) :
  is_mode_line l = true <-> exists v, strip l = "mode=" ++ v.
Proof. unfold is_mode_line, startswith. apply prefix_app. Qed.

Lemma scan_mode_cons (l : string) (rest : list string) :
  scan_mode (l :: rest)
  = if is_mode_line l then
      match nth_error (split1 "=" (strip l)) 1 with
      | Some v => Ret (Some (strip v))
      | None => Raise IndexError
      end
    else scan_mode rest.
Proof. reflexivity. Qed.

(** The scan stops at the first mode line and returns its value. *)
Lemma scan_mode_first (pre post : list string) (l v : string) :
  (forall x, In x pre -> is_mode_line x = false) ->
  strip l = "mode=" ++ v ->
  scan_mode (pre ++ l :: post) = Ret (Some (strip v)).
Proof.
  intros Hpre Hl. induction pre as [|x pre IH].
  - change ([] ++ l :: post)%list with (l :: post).
    rewrite scan_mode_cons.
    assert (Ht : is_mode_line l = true).
    { apply is_mode_line_iff. now exists v. }
    rewrite Ht, Hl. reflexivity.
  - change ((x :: pre) ++ l :: post)%list with (x :: (pre ++ l :: post))%list.
    rewrite scan_mode_cons.
    assert (Hx : is_mode_line x = false) by (apply Hpre; now left).
    rewrite Hx.
    apply IH. intros y Hy. apply Hpre. now right.
Qed.

Lemma scan_mode_cases (lines : list string) :
  (scan_mode lines = Ret None /\
   forall l, In l lines -> is_mode_line l = false) \/
  (exists pre l post v,
      lines = (pre ++ l :: post)%list /\
      (forall x, In x pre -> is_mode_line x = false) /\
      strip l = "mode=" ++ v /\
      scan_mode lines = Ret (Some (strip v))).
Proof.
  induction lines as [|x lines IH].
  - left. split; [reflexivity|]. intros l [].
  - destruct (is_mode_line x) eqn:Hx.
    + right. destruct (proj1 (is_mode_line_iff x) Hx) as [v Hv].
      exists [], x, lines, v. repeat split; [intros y []|exact Hv|].
      now apply (scan_mode_first [] lines x v).
    + destruct IH as [[E H]|(pre & l & post & v & E & Hpre & Hl & Hs)].
      * left. rewrite scan_mode_cons, Hx.
        split; [exact E|]. intros l [<-|Hl]; [exact Hx|now apply H].
      * right. exists (x :: pre), l, post, v.
        assert (Hpre' : forall y, In y (x :: pre) -> is_mode_line y = false).
        { intros y [<-|Hy]; [exact Hx|now apply Hpre]. }
        repeat split; [now rewrite E|exact Hpre'|exact Hl|].
        rewrite E. now apply (scan_mode_first (x :: pre)).
Qed.

Lemma in_modes_not_unknown (m : string) :
  in_modes m = true -> m <> "unknown".
Proof.
  intros H ->. discriminate.
Qed.

End Reader.

(** * Collecting the device facts *)

Section Collector.

Context {host : Host}.

(** An unprivileged [run_cmd] is one attempt through the plain shell. *)
Lemma run_cmd_plain (cmd : string) (st : State) :
  run_cmd cmd false st
  = (let (a, st') := run ["sh"; "-c"; cmd] st in
     if zero_exit a
     then ((accepted_output a, 
            match a with
            | Completed _ _ stderr => or_none (strip stderr)
            | _ => None
            end, 0%Z), st')
     else (command_failed, st')).
Proof.
  unfold run_cmd, try_cmds. simpl.
  destruct (run ["sh"; "-c"; cmd] st) as [[rc out err| |] st']; simpl; auto.
  destruct (rc =? 0)%Z eqn:E; [|reflexivity].
  apply Z.eqb_eq in E. now subst.
Qed.

(** What [run_cmd] appends to the trace: the command through [sh], and
    through [su] only when asked. *)
Lemma run_cmd_adds (cmd : string) (use_su : bool) (st : State) :
  exists l,
    spawned (snd (run_cmd cmd use_su st)) = (spawned st ++ l)%list /\
    forall c, In c l ->
      c = ["sh"; "-c"; cmd] \/ (use_su = true /\ c = ["su"; "-c"; cmd]).
Proof.
  destruct (run_cmd_spawned cmd use_su st) as (l & post & E & _ & S).
  exists l. split; [exact S|].
  intros c Hc.
  assert (Hin : In c (try_cmds cmd use_su)).
  { rewrite E. apply in_or_app. now left. }
  unfold try_cmds in Hin. destruct use_su; simpl in Hin.
  - destruct Hin as [<-|[<-|[]]]; auto.
  - destruct Hin as [<-|[]]; auto.
Qed.

Lemma run_cmd_plain_output (cmd : string) (st : State) :
  exists e code,
    run_cmd cmd false st
    = ((accepted_output (fst (run ["sh"; "-c"; cmd] st)), e, code),
       snd (run ["sh"; "-c"; cmd] st)) /\
    (code =? 0)%Z && truthy (accepted_output (fst (run ["sh"; "-c"; cmd] st)))
    = truthy (accepted_output (fst (run ["sh"; "-c"; cmd] st))).
Proof.
  rewrite run_cmd_plain.
  destruct (run ["sh"; "-c"; cmd] st) as [a st']. simpl.
  destruct a as [rc out err| |]; simpl;
    [destruct (rc =? 0)%Z; simpl| |];
    do 2 eexists; split; reflexivity.
Qed.

Lemma getprop_absent (prop : string) (st : State) :
  fst (detect_binary "getprop" st) = false ->
  fst (getprop prop st) = None.
Proof.
  unfold getprop. destruct (detect_binary "getprop" st) as [found st1].
  simpl. now intros ->.
Qed.

Lemma detect_binary_adds (name : string) (st : State) :
  exists l,
    spawned (snd (detect_binary name st)) = (spawned st ++ l)%list /\
    forall c, In c l -> exists prog, c = [prog; "-c"; "which " ++ name].
Proof.
  unfold detect_binary.
  destruct (run_cmd_adds ("which " ++ name) true st) as (l & S & H).
  destruct (run_cmd ("which " ++ name) true st) as [[[out err] code] st1].
  exists l. split; [exact S|].
  intros c Hc. destruct (H c Hc) as [->|[_ ->]]; eauto.
Qed.

(** [getprop] spawns nothing but [which getprop] and the query. *)
Lemma getprop_adds (prop : string) (st : State) :
  exists l,
    spawned (snd (getprop prop st)) = (spawned st ++ l)%list /\
    forall c, In c l ->
      exists prog cmd,
        c = [prog; "-c"; cmd] /\
        (cmd = "which getprop" \/ cmd = "getprop " ++ prop).
Proof.
  unfold getprop.
  destruct (detect_binary_adds "getprop" st) as (l1 & S1 & H1).
  destruct (detect_binary "getprop" st) as [found st1].
  simpl in S1.
  assert (W : forall c, In c l1 ->
            exists prog cmd, c = [prog; "-c"; cmd] /\
              (cmd = "which getprop" \/ cmd = "getprop " ++ prop)).
  { intros c Hc. destruct (H1 c Hc) as [prog ->]. exists prog. eauto. }
  destruct found.
  - destruct (run_cmd_adds ("getprop " ++ prop) true st1) as (l2 & S2 & H2).
    destruct (run_cmd ("getprop " ++ prop) true st1)
      as [[[out2 err2] code2] st2].
    simpl in S2. exists (l1 ++ l2)%list. split.
    + destruct ((code2 =? 0)%Z && truthy out2); simpl;
        now rewrite S2, S1, app_assoc.
    + intros c Hc. apply in_app_or in Hc. destruct Hc as [Hc|Hc].
      * now apply W.
      * destruct (H2 c Hc) as [->|[_ ->]]; eauto.
  - exists l1. split; [exact S1|exact W].
Qed.

Lemma or_env_resolves (live : option string) (name : string) :
  resolves live (getenv name) (or_env live name).
Proof.
  unfold or_env. destruct live as [v|].
  - now apply resolves_live.
  - destruct (getenv name) as [e|] eqn:E.
    + destruct (truthy e) eqn:T.
      * now apply resolves_env.
      * apply resolves_placeholder; [reflexivity|]. right.
        destruct e; [reflexivity|discriminate].
    + apply resolves_placeholder; auto.
Qed.

(** The words [split] returns are not empty. *)
Lemma words_from_truthy (s : string) :
  forall cur, Forall (fun w => truthy w = true) (words_from cur s).
Proof.
  induction s as [|c s IH]; intros cur; simpl.
  - destruct cur; simpl; auto.
  - destruct (isspace c).
    + destruct cur; simpl; auto.
    + apply IH.
Qed.

Lemma scan_meminfo_truthy (lines : list string) (kb : string) :
  scan_meminfo lines = Some kb -> truthy kb = true.
Proof.
  induction lines as [|l lines IH]; [discriminate|].
  change (scan_meminfo (l :: lines))
    with (if startswith l "MemTotal:" then nth_error (split l) 1
          else scan_meminfo lines).
  destruct (startswith l "MemTotal:"); [|exact IH].
  intros H. apply nth_error_In in H.
  pose proof (words_from_truthy l "") as F.
  rewrite Forall_forall in F. now apply F.
Qed.

End Collector.

(** * Writing the mode *)

Section Writer.

Context {host : Host}.

(** What [run_cmd] returns as output is trimmed. *)
Lemma run_cmd_output_trimmed (cmd : string) (use_su : bool) (st : State) :
  exists raw, fst (fst (fst (run_cmd cmd use_su st))) = strip raw.
Proof.
  unfold run_cmd.
  destruct (fail_through_or_accept (try_cmds cmd use_su) st)
    as [[st' H]|(pre & c & post & s1 & out & err & s2 & H1 & H2 & H3)].
  - rewrite (run_loop_exhausted _ _ _ H). now exists "".
  - rewrite H1, (run_loop_accepted pre post c st s1 s2 out err H2 H3).
    now exists out.
Qed.

(** A write spawns, after its [cat], the [printf] command on the content
    it assembled, through [su] or [sh]. *)
Lemma write_config_mode_spawned (m : string) (st : State) :
  in_modes m = true ->
  let '((out, _, code), st1) := run_cmd ("cat " ++ CONFIG_PATH) true st in
  exists l,
    spawned (snd (write_config_mode m st)) = (spawned st1 ++ l)%list /\
    l <> [] /\
    forall c, In c l ->
      exists prog,
        c = [prog; "-c"; echo_cmd (updated_content m out code)].
Proof.
  intros H. unfold write_config_mode. rewrite H. simpl negb. cbv iota.
  destruct (run_cmd ("cat " ++ CONFIG_PATH) true st) as [[[out err] code] st1].
  destruct (run_cmd_spawned (echo_cmd (updated_content m out code)) true st1)
    as (l & post & E & N & S).
  destruct (run_cmd_adds (echo_cmd (updated_content m out code)) true st1)
    as (l' & S' & A).
  destruct (run_cmd (echo_cmd (updated_content m out code)) true st1)
    as [[[out2 err2] code2] st2].
  simpl in *. exists l. repeat split; [exact S|exact N|].
  assert (l' = l) by (rewrite S in S'; now apply app_inv_head in S').
  subst l'. intros c Hc. destruct (A c Hc) as [->|[_ ->]]; eauto.
Qed.

(** [repr] writes every line boundary as an escape: what [sh_escape]
    returns holds no line feed, nor any other line boundary. *)
Lemma repr_char_one_line (quote c : ascii) :
  quote = squote \/ quote = dquote ->
  one_line (repr_char quote c) = true.
Proof.
  intros [->| ->];
    destruct c as [[] [] [] [] [] [] [] []]; reflexivity.
Qed.

Lemma repr_body_one_line (quote : ascii) (s : string) :
  quote = squote \/ quote = dquote ->
  one_line (repr_body quote s) = true.
Proof.
  intros Q. induction s as [|c s IH]; [reflexivity|].
  simpl. rewrite one_line_app, IH.
  now rewrite (repr_char_one_line quote c Q).
Qed.

Lemma sh_escape_one_line (s : string) : one_line (sh_escape s) = true.
Proof.
  unfold sh_escape, repr.
  destruct (contains squote s && negb (contains dquote s)).
  - change (one_line (String dquote (repr_body dquote s ++ String dquote "")))
      with (one_line (repr_body dquote s ++ String dquote "")).
    rewrite one_line_app.
    now rewrite (repr_body_one_line dquote s (or_intror eq_refl)).
  - change (one_line (String squote (repr_body squote s ++ String squote "")))
      with (one_line (repr_body squote s ++ String squote "")).
    rewrite one_line_app.
    now rewrite (repr_body_one_line squote s (or_introl eq_refl)).
Qed.

Lemma filter_other_lines (m : string) (lines : list string) :
  in_modes m = true ->
  filter (fun l => negb (is_mode_line l)) (rewritten m lines)
  = filter (fun l => negb (is_mode_line l)) lines.
Proof.
  intros H. unfold rewritten. rewrite filter_app.
  assert (T : filter (fun l => negb (is_mode_line l))
                (if existsb is_mode_line lines then [] else [mode_line m])
              = []).
  { destruct (existsb is_mode_line lines); [reflexivity|]. simpl.
    destruct (mode_line_shape m H) as (_ & -> & _). reflexivity. }
  rewrite T, app_nil_r. clear T.
  induction lines as [|l lines IH]; [reflexivity|]. simpl.
  rewrite replace_mode_is_mode_line by exact H.
  unfold replace_mode at 1.
  destruct (is_mode_line l) eqn:E; simpl; now rewrite IH.
Qed.

Lemma rewritten_mode_lines (m : string) (lines : list string) (l : string) :
  In l (rewritten m lines) -> is_mode_line l = true -> l = mode_line m.
Proof.
  unfold rewritten. intros Hin Hl. apply in_app_or in Hin.
  destruct Hin as [Hin|Hin].
  - apply in_map_iff in Hin. destruct Hin as (x & <- & _).
    unfold replace_mode in *. destruct (is_mode_line x) eqn:E; congruence.
  - destruct (existsb is_mode_line lines); simpl in Hin; intuition.
Qed.

Lemma count_occ_mode_line (m : string) (L : list string) :
  in_modes m = true ->
  (forall l, In l L -> is_mode_line l = true -> l = mode_line m) ->
  count_occ string_dec L (mode_line m) = count_mode_lines L.
Proof.
  intros H. unfold count_mode_lines.
  induction L as [|x L IH]; intros A; [reflexivity|]. simpl.
  assert (IH' : count_occ string_dec L (mode_line m)
                = List.length (filter is_mode_line L)).
  { apply IH. intros l Hl. apply A. now right. }
  destruct (string_dec x (mode_line m)) as [->|N].
  - destruct (mode_line_shape m H) as (_ & -> & _). simpl. now rewrite IH'.
  - destruct (is_mode_line x) eqn:E; [|exact IH'].
    exfalso. apply N. apply A; [now left|exact E].
Qed.

End Writer.

(** * The program on the rooted phone *)

Section OnPhone.

Lemma strip_prefix_spec (p s r : string) :
  Device.strip_prefix p s = Some r -> s = p ++ r.
Proof.
  revert s. induction p as [|a p IH]; intros [|b s]; simpl;
    try discriminate; try (intros H; now inversion H).
  destruct (Ascii.eqb_spec a b) as [->|N]; [|discriminate].
  intros H. now rewrite (IH s H).
Qed.

Lemma single_quoted_spec (s t r : string) :
  Device.single_quoted s = Some (t, r) -> s = t ++ String squote r.
Proof.
  revert t. induction s as [|c s IH]; intros t; simpl; [discriminate|].
  destruct (Ascii.eqb_spec c squote) as [->|N].
  - intros H. now inversion H.
  - destruct (Device.single_quoted s) as [[t' r']|]; [|discriminate].
    intros H. inversion H; subst. simpl. now rewrite (IH t' eq_refl).
Qed.

Lemma length_append (a b : string) :
  String.length (a ++ b) = String.length a + String.length b.
Proof. induction a as [|x a IH]; simpl; [reflexivity|now rewrite IH]. Qed.

Lemma append_inv_tail (c : string) :
  forall a b, a ++ c = b ++ c -> a = b.
Proof.
  induction a as [|x a IH]; intros [|y b] H; simpl in H.
  - reflexivity.
  - apply (f_equal String.length) in H. simpl in H.
    rewrite length_append in H. lia.
  - apply (f_equal String.length) in H. simpl in H.
    rewrite length_append in H. lia.
  - inversion H. f_equal. now apply IH.
Qed.

(** What the shell of the phone makes of the write command: a [printf]
    of the body of [repr] to some path, or a line it does not know. *)
Lemma parse_echo_cmd (content : string) :
  let cmd := @echo_cmd (Device.host Device.rooted_phone) content in
  Device.parse cmd = Device.Other \/
  exists text target,
    Device.parse cmd = Device.PrintfTo text target /\
    (target = Device.config_path Device.rooted_phone ->
     text = repr_body squote content).
Proof.
  intros cmd. unfold Device.parse.
  set (path := Device.config_path Device.rooted_phone).
  assert (E1 : Device.strip_prefix "cat " cmd = None) by reflexivity.
  assert (E2 : Device.strip_prefix "printf '%s' '" cmd
               = Device.strip_prefix (String squote "")
                   (repr content ++ " > " ++ path)) by reflexivity.
  rewrite E1, E2. unfold repr.
  destruct (contains squote content && negb (contains dquote content)).
  - left. reflexivity.
  - assert (E3 : Device.strip_prefix (String squote "")
                   (String squote
                      (repr_body squote content ++ String squote "")
                    ++ " > " ++ path)
                 = Some ((repr_body squote content ++ String squote "")
                         ++ " > " ++ path)) by reflexivity.
    rewrite E3.
    destruct (Device.single_quoted
                ((repr_body squote content ++ String squote "")
                 ++ " > " ++ path))
      as [[text r]|] eqn:Q; [|now left].
    destruct (Device.strip_prefix " > " r) as [target|] eqn:P; [|now left].
    right. exists text, target. split; [reflexivity|].
    intros ->. apply single_quoted_spec in Q. apply strip_prefix_spec in P.
    subst r. rewrite append_assoc in Q.
    symmetry. now apply (append_inv_tail (String squote (" > " ++ path))).
Qed.

Lemma cat_on_phone (st : @State (Device.host Device.rooted_phone)) :
  let r :=
    run_cmd ("cat " ++ @CONFIG_PATH (Device.host Device.rooted_phone)) true st
  in
  fst r = match Device.config _ st with
          | Some text => (strip text, None, 0%Z)
          | None => command_failed
          end /\
  Device.config _ (snd r) = Device.config _ st.
Proof.
  destruct st as [w sp]. cbn in w. destruct w; split; reflexivity.
Qed.

Lemma run_cmd_su_unfold {host : Host} (cmd : string) (st : State) :
  run_cmd cmd true st
  = match run ["su"; "-c"; cmd] st with
    | (Completed rc out err, st1) =>
        if (rc =? 0)%Z then ((strip out, or_none (strip err), rc), st1)
        else run_loop [["sh"; "-c"; cmd]] st1
    | (_, st1) => run_loop [["sh"; "-c"; cmd]] st1
    end.
Proof.
  unfold run_cmd, try_cmds. simpl.
  destruct (run ["su"; "-c"; cmd] st) as [[rc out err| |] st1]; reflexivity.
Qed.

Lemma printf_on_phone (content : string)
  (st : @State (Device.host Device.rooted_phone)) :
  let r :=
    run_cmd (@echo_cmd (Device.host Device.rooted_phone) content) true st in
  snd (fst r) = 0%Z ->
  Device.config _ (snd r) = Some (repr_body squote content).
Proof.
  intros r. subst r. rewrite run_cmd_su_unfold.
  set (cmd := @echo_cmd (Device.host Device.rooted_phone) content).
  assert (Esu : run ["su"; "-c"; cmd] st
                = (fst (Device.sh Device.rooted_phone true cmd (world st)),
                   Device.state_of Device.rooted_phone
                     (snd (Device.sh Device.rooted_phone true cmd (world st)))
                     (spawned st ++ [["su"; "-c"; cmd]])%list)).
  { unfold run.
    change (subprocess_run ["su"; "-c"; cmd] (world st))
      with (Device.sh Device.rooted_phone true cmd (world st)).
    now destruct (Device.sh Device.rooted_phone true cmd (world st)). }
  assert (Esh : forall st1 : @State (Device.host Device.rooted_phone),
             run ["sh"; "-c"; cmd] st1
             = (fst (Device.sh Device.rooted_phone false cmd (world st1)),
                Device.state_of Device.rooted_phone
                  (snd (Device.sh Device.rooted_phone false cmd (world st1)))
                  (spawned st1 ++ [["sh"; "-c"; cmd]])%list)).
  { intros st1. unfold run.
    change (subprocess_run ["sh"; "-c"; cmd] (world st1))
      with (Device.sh Device.rooted_phone false cmd (world st1)).
    now destruct (Device.sh Device.rooted_phone false cmd (world st1)). }
  assert (Fsh : forall w, exists rc err,
             Device.sh Device.rooted_phone false cmd w
             = (Completed rc "" err, w) /\ (rc =? 0)%Z = false).
  { intros w. unfold Device.sh.
    destruct (parse_echo_cmd content) as [E|(text & target & E & _)];
      fold cmd in E; rewrite E.
    - do 2 eexists. split; reflexivity.
    - unfold Device.may_access. cbn [Device.root_only Device.rooted_phone].
      rewrite andb_false_r. do 2 eexists. split; reflexivity. }
  assert (Fsu : forall w,
             Device.sh Device.rooted_phone true cmd w
             = (Completed 0 "" "", Some (repr_body squote content)) \/
             exists rc err,
               Device.sh Device.rooted_phone true cmd w
               = (Completed rc "" err, w) /\ (rc =? 0)%Z = false).
  { intros w. unfold Device.sh.
    destruct (parse_echo_cmd content) as [E|(text & target & E & T)];
      fold cmd in E; rewrite E.
    - right. do 2 eexists. split; reflexivity.
    - unfold Device.may_access. cbn [orb]. rewrite andb_true_r.
      destruct (String.eqb_spec target (Device.config_path Device.rooted_phone))
        as [Y|N].
      + left. now rewrite (T Y).
      + right. do 2 eexists. split; reflexivity. }
  rewrite Esu.
  destruct (Fsu (world st)) as [F|(rc & err & F & Z)]; rewrite F; cbn [fst snd].
  - cbn. reflexivity.
  - rewrite Z. cbn [run_loop]. rewrite Esh.
    set (st1 := Device.state_of Device.rooted_phone (world st)
                  (spawned st ++ [["su"; "-c"; cmd]])%list).
    destruct (Fsh (world st1)) as (rc' & err' & F' & Z').
    rewrite F'. cbn [fst snd]. rewrite Z'. cbn. discriminate.
Qed.

Lemma last_char_app (a b : string) :
  is_empty b = false -> last_char (a ++ b) = last_char b.
Proof.
  intros H. induction a as [|c a IH]; [reflexivity|].
  simpl. destruct (a ++ b) eqn:E; [|exact IH].
  destruct a; simpl in E; [|discriminate]. subst. discriminate.
Qed.

Lemma last_char_solid (s : string) (c : ascii) :
  last_char s = Some c -> isspace c = false -> ends_solid s = true.
Proof.
  induction s as [|d s IH]; [discriminate|].
  destruct s as [|e s].
  - simpl. intros H. inversion H. now intros ->.
  - exact IH.
Qed.

Lemma lstrip_last (s : string) :
  ends_solid s = true ->
  ends_solid (lstrip s) = true /\ last_char (lstrip s) = last_char s.
Proof.
  induction s as [|c s IH]; [discriminate|].
  intros H. simpl lstrip. destruct (isspace c) eqn:Hc; [|now split].
  destruct s as [|d s].
  - simpl in H. rewrite Hc in H. discriminate.
  - exact (IH H).
Qed.

(** Trimming a text that ends with a solid character keeps its last
    character. *)
Lemma strip_last (s : string) :
  ends_solid s = true ->
  ends_solid (strip s) = true /\ last_char (strip s) = last_char s.
Proof.
  intros H. destruct (lstrip_last s H) as [H1 H2].
  unfold strip. now rewrite rstrip_solid.
Qed.

Lemma all_chars_lstrip p (s : string) :
  all_chars p s = true -> all_chars p (lstrip s) = true.
Proof.
  induction s as [|c s IH]; [reflexivity|]. intros H. simpl.
  destruct (isspace c); [|exact H].
  simpl in H. apply andb_prop in H. now apply IH.
Qed.

Lemma all_chars_rstrip p (s : string) :
  all_chars p s = true -> all_chars p (rstrip s) = true.
Proof.
  induction s as [|c s IH]; [reflexivity|]. intros H. simpl in *.
  apply andb_prop in H. destruct H as [H1 H2].
  destruct (isspace c && is_empty (rstrip s)); [reflexivity|].
  simpl. now rewrite H1, IH.
Qed.

Lemma one_line_strip (s : string) : one_line s = true -> one_line (strip s) = true.
Proof.
  intros H. unfold strip, one_line.
  now apply all_chars_rstrip, all_chars_lstrip.
Qed.

Lemma splitlines_single (s : string) :
  one_line s = true -> is_empty s = false -> splitlines s = [s].
Proof.
  intros H N. unfold splitlines.
  rewrite <- (append_empty_r s) at 1.
  rewrite lines_from_stretch by exact H. simpl. now rewrite N.
Qed.

Lemma repr_body_app (quote : ascii) (a b : string) :
  repr_body quote (a ++ b) = repr_body quote a ++ repr_body quote b.
Proof.
  induction a as [|c a IH]; [reflexivity|].
  simpl. now rewrite IH, append_assoc.
Qed.

(** The escaped body of a content that ends with a line feed ends with
    the letter n. *)
Lemma repr_body_last (s : string) :
  last_char (repr_body squote (s ++ nl)) = Some "n"%char.
Proof.
  rewrite repr_body_app. now apply last_char_app.
Qed.

Lemma mode_value_last (v : string) (c : ascii) :
  last_char ("mode=" ++ v) = Some c -> c <> "="%char ->
  last_char v = Some c.
Proof.
  intros H N. destruct v as [|d v].
  - simpl in H. inversion H. congruence.
  - now rewrite (last_char_app "mode=" (String d v) eq_refl) in H.
Qed.

(** A successful write on the rooted phone leaves one line in the file,
    the content as [repr] escaped it, which ends with the letter n; and
    the read that follows returns nothing, or a value that ends with the
    letter n.  (On this phone a write succeeds only with a content that
    [repr] wraps in single quotes.) *)
Lemma read_back_on_phone (m : string)
  (st : @State (Device.host Device.rooted_phone)) :
  in_modes m = true ->
  fst (write_config_mode m st) = Ret true ->
  let st' := snd (write_config_mode m st) in
  (exists body,
      Device.config _ st' = Some body /\
      Device.file_lines (Some body) = [body] /\
      last_char body = Some "n"%char) /\
  (fst (read_config_mode st') = Ret None \/
   exists v,
     fst (read_config_mode st') = Ret (Some v) /\
     last_char v = Some "n"%char).
Proof.
  intros H W.
  unfold write_config_mode in *. rewrite H in *. cbn [negb] in *.
  destruct (run_cmd ("cat " ++ CONFIG_PATH) true st) as [[[out err] code] st1].
  pose proof (printf_on_phone (updated_content m out code) st1) as P.
  destruct (run_cmd (echo_cmd (updated_content m out code)) true st1)
    as [[[out2 err2] code2] st2].
  cbn [fst snd] in *.
  assert (Z : code2 = 0%Z).
  { inversion W as [E]. now apply Z.eqb_eq in E. }
  specialize (P Z). clear W.
  rewrite updated_content_lines in P.
  set (body := repr_body squote
                 (join nl (rewritten m (lines_read out code)) ++ nl)) in P.
  assert (Lb : last_char body = Some "n"%char) by apply repr_body_last.
  assert (Ob : one_line body = true).
  { apply repr_body_one_line. now left. }
  pose proof (last_char_solid _ _ Lb eq_refl) as Sb.
  destruct (strip_last body Sb) as [Sx Lx].
  rewrite Lb in Lx.
  split.
  - exists body. repeat split; [exact P| |exact Lb].
    apply splitlines_single; [exact Ob|now apply ends_solid_nonempty].
  - unfold read_config_mode.
    destruct (cat_on_phone st2) as [R _]. rewrite P in R.
    destruct (run_cmd ("cat " ++ CONFIG_PATH) true st2) as [[[o e] c] st3].
    cbn [fst] in R. inversion R; subst o e c. cbn [Z.eqb negb orb].
    unfold truthy. rewrite (ends_solid_nonempty _ Sx). cbn [negb fst].
    rewrite splitlines_single;
      [|now apply one_line_strip|now apply ends_solid_nonempty].
    rewrite scan_mode_cons.
    destruct (is_mode_line (strip body)) eqn:M; [|now left].
    apply is_mode_line_iff in M. destruct M as [v Hv].
    rewrite Hv.
    change (nth_error (split1 "=" ("mode=" ++ v)) 1) with (Some v).
    right. exists (strip v). split; [reflexivity|].
    rewrite strip_idem in Hv. rewrite Hv in Lx.
    apply mode_value_last in Lx; [|discriminate].
    destruct (strip_last v (last_char_solid _ _ Lx eq_refl)) as [_ Lv].
    now rewrite Lv.
Qed.

End OnPhone.

(** * The properties of the specification *)

(** C5.  [run_cmd] tries [su -c cmd] first, and only when [use_su] is
    set, then [sh -c cmd].  The first attempt that completes with exit
    status 0 ends the call: its trimmed standard output is returned and
    no later strategy is spawned.  When every strategy was tried and none
    completed with exit status 0, be it for a missing executable or any
    other exception, the call returns the empty output, the error text
    "Command failed" and status 1.  One of the two always happens: the
    call returns, it raises nothing. *)
Theorem run_cmd_contract {host : Host} (cmd : string) (use_su : bool)
  (st : State) :
  try_cmds cmd use_su
  = (if use_su then [["su"; "-c"; cmd]; ["sh"; "-c"; cmd]]
     else [["sh"; "-c"; cmd]]) /\
  (forall pre c post st1 out err st2,
      try_cmds cmd use_su = (pre ++ c :: post)%list ->
      fail_through pre st = Some st1 ->
      run c st1 = (Completed 0 out err, st2) ->
      run_cmd cmd use_su st = ((strip out, or_none (strip err), 0%Z), st2) /\
      spawned st2 = (spawned st ++ pre ++ [c])%list) /\
  (forall st',
      fail_through (try_cmds cmd use_su) st = Some st' ->
      run_cmd cmd use_su st = (("", Some "Command failed", 1%Z), st') /\
      spawned st' = (spawned st ++ try_cmds cmd use_su)%list) /\
  ((exists st', fail_through (try_cmds cmd use_su) st = Some st') \/
   (exists pre c post st1 out err st2,
       try_cmds cmd use_su = (pre ++ c :: post)%list /\
       fail_through pre st = Some st1 /\
       run c st1 = (Completed 0 out err, st2))).
Proof.
  split; [now destruct use_su|]. split; [|split].
  - intros pre c post st1 out err st2 E H1 H2. unfold run_cmd. rewrite E.
    split; [now apply (run_loop_accepted pre post c st st1 st2)|].
    pose proof (run_spawned c st1) as S. rewrite H2 in S. simpl in S.
    now rewrite S, (fail_through_spawned _ _ _ H1), <- app_assoc.
  - intros st' H. split.
    + now apply run_loop_exhausted.
    + now apply fail_through_spawned.
  - apply fail_through_or_accept.
Qed.

(** On a rooted phone the privileged [cat] is accepted and the plain
    shell is not tried. *)
Lemma run_cmd_contract_witness :
  let st := Device.boot Device.rooted_phone (Some Device.three_lines) in
  let cmd := "cat /data/adb/modules/YourModule/config.conf" in
  exists st2,
    run_cmd cmd true st
    = ((strip Device.three_lines, or_none (strip ""), 0%Z), st2) /\
    spawned st2 = (spawned st ++ [] ++ [["su"; "-c"; cmd]])%list.
Proof.
  intros st cmd.
  destruct (run_cmd_contract cmd true st) as (_ & H & _).
  eexists.
  apply (H [] ["su"; "-c"; cmd] [["sh"; "-c"; cmd]] st Device.three_lines "");
    reflexivity.
Defined.

(** C6.  A request whose mode, lowercased and trimmed, is neither
    [otomatis] nor [statis] is answered with the client error 400, and
    the state is the one before the request: the configuration file is
    as it was and no command was spawned. *)
Theorem set_mode_rejects {host : Host} (payload_mode : string) (st : State) :
  in_modes (strip (lower payload_mode)) = false ->
  set_mode payload_mode st
  = (HTTPException 400 "Mode harus 'otomatis' atau 'statis'", st).
Proof.
  intros H. unfold set_mode. now rewrite H.
Qed.

Lemma set_mode_rejects_witness :
  in_modes (strip (lower "fast")) = false /\
  set_mode "fast" (Device.boot Device.rooted_phone (Some Device.three_lines))
  = (HTTPException 400 "Mode harus 'otomatis' atau 'statis'",
     Device.boot Device.rooted_phone (Some Device.three_lines)).
Proof.
  split; [reflexivity|]. apply set_mode_rejects. reflexivity.
Defined.

(** C8.  [GET /api/mode] always answers with a body (it raises nothing)
    whose mode is [otomatis], [statis] or [unknown].  With a mode line
    being a line whose trimmed text starts with [mode=], the answer is
    [unknown] exactly when the [cat] of the configuration file failed, or
    no line read is a mode line, or the trimmed value of the first mode
    line is neither [otomatis] nor [statis]. *)
Theorem get_mode_total {host : Host} (st : State) :
  let '((out, _, code), st1) := run_cmd ("cat " ++ CONFIG_PATH) true st in
  exists status,
    get_mode st = (OK (status, CONFIG_PATH), st1) /\
    (status = "otomatis" \/ status = "statis" \/ status = "unknown") /\
    (status = "unknown" <->
       code <> 0%Z \/
       (forall l, In l (splitlines out) -> is_mode_line l = false) \/
       (exists pre l post v,
           splitlines out = (pre ++ l :: post)%list /\
           (forall x, In x pre -> is_mode_line x = false) /\
           strip l = "mode=" ++ v /\
           in_modes (strip v) = false)).
Proof.
  unfold get_mode, read_config_mode.
  destruct (run_cmd ("cat " ++ CONFIG_PATH) true st) as [[[out err] code] st1].
  destruct (code =? 0)%Z eqn:Hcode; simpl.
  - apply Z.eqb_eq in Hcode.
    destruct (truthy out) eqn:Hout; simpl.
    + destruct (scan_mode_cases (splitlines out))
        as [[E H]|(pre & l & post & v & E & Hpre & Hl & Hs)].
      * rewrite E. exists "unknown". repeat split; auto.
      * rewrite Hs. destruct (in_modes (strip v)) eqn:Hv.
        -- exists (strip v). split; [reflexivity|]. split.
           ++ destruct (in_modes_cases _ Hv) as [->| ->]; auto.
           ++ split.
              ** intros U. now apply in_modes_not_unknown in Hv.
              ** intros [N|[N|(pre' & l' & post' & v' & E' & Hpre' & Hl' & Hv')]].
                 --- contradiction.
                 --- assert (Hm : is_mode_line l = false).
                     { apply N. rewrite E. apply in_elt. }
                     assert (Ht : is_mode_line l = true).
                     { apply is_mode_line_iff. now exists v. }
                     congruence.
                 --- pose proof (scan_mode_first pre' post' l' v' Hpre' Hl') as S.
                     rewrite <- E', Hs in S. inversion S. congruence.
        -- exists "unknown". repeat split; auto.
           intros _. right. right. now exists pre, l, post, v.
    + exists "unknown". repeat split; auto. intros _. right. left.
      destruct out; [intros l []|discriminate].
  - exists "unknown". repeat split; auto. intros _. left.
    apply Z.eqb_neq in Hcode. exact Hcode.
Qed.

(** C10, as the code has it.  The five fields read through the property
    reader (model, board, brand, android, cpu) follow the three-tier
    rule: the live value, else the environment variable when it is set
    and not empty, else the placeholder.  The kernel field has two
    tiers and no environment variable: the trimmed output of
    [sh -c 'uname -r'] when that attempt exits with status 0, else the
    placeholder.  The ram field comes from the [free] pipeline through
    the plain shell, else from [/proc/meminfo], else it is the
    placeholder.  Every command the collector spawns is one of those two
    through [sh], or a [which getprop] or [getprop] command: the kernel
    query never goes through [su]. *)
Theorem device_info_resolution {host : Host} (st : State) :
  let '(p_model, st1) := getprop "ro.product.model" st in
  let '(p_board, st2) := getprop "ro.product.board" st1 in
  let '(p_brand, st3) := getprop "ro.product.manufacturer" st2 in
  let '(p_android, st4) := getprop "ro.build.version.release" st3 in
  let '(uname, st5) := run ["sh"; "-c"; "uname -r"] st4 in
  let '(p_cpu, st6) := getprop "ro.hardware" st5 in
  let '(free, st7) :=
    run ["sh"; "-c"; "free | grep Mem | awk '{print $2}'"] st6 in
  let '(info, st') := get_device_info st in
  st' = st7 /\
  resolves p_model (getenv "DEVICE_MODEL") (model info) /\
  resolves p_board (getenv "DEVICE_BOARD") (board info) /\
  resolves p_brand (getenv "DEVICE_BRAND") (brand info) /\
  resolves p_android (getenv "DEVICE_ANDROID") (android info) /\
  resolves p_cpu (getenv "DEVICE_CPU") (cpu info) /\
  kernel info
  = (if truthy (accepted_output uname) then accepted_output uname
     else "Tidak tersedia") /\
  ram info
  = (if truthy (accepted_output free) then accepted_output free ++ " kB"
     else match open_read "/proc/meminfo" (world st7) with
          | Some text =>
              match scan_meminfo (readlines text) with
              | Some kb => kb ++ " kB"
              | None => "Tidak tersedia"
              end
          | None => "Tidak tersedia"
          end) /\
  exists l,
    spawned st' = (spawned st ++ l)%list /\
    ~ In ["su"; "-c"; "uname -r"] l /\
    forall c, In c l ->
      c = ["sh"; "-c"; "uname -r"] \/
      c = ["sh"; "-c"; "free | grep Mem | awk '{print $2}'"] \/
      exists prog cmd,
        c = [prog; "-c"; cmd] /\
        (cmd = "which getprop" \/ exists prop, cmd = "getprop " ++ prop).
Proof.
  unfold get_device_info.
  destruct (getprop_adds "ro.product.model" st) as (l1 & S1 & H1).
  destruct (getprop "ro.product.model" st) as [p_model st1].
  destruct (getprop_adds "ro.product.board" st1) as (l2 & S2 & H2).
  destruct (getprop "ro.product.board" st1) as [p_board st2].
  destruct (getprop_adds "ro.product.manufacturer" st2) as (l3 & S3 & H3).
  destruct (getprop "ro.product.manufacturer" st2) as [p_brand st3].
  destruct (getprop_adds "ro.build.version.release" st3) as (l4 & S4 & H4).
  destruct (getprop "ro.build.version.release" st3) as [p_android st4].
  destruct (run_cmd_plain_output "uname -r" st4) as (e5 & c5 & E5 & _).
  pose proof (run_spawned ["sh"; "-c"; "uname -r"] st4) as S5.
  destruct (run ["sh"; "-c"; "uname -r"] st4) as [uname st5].
  rewrite E5. simpl fst in *. simpl snd in *.
  destruct (getprop_adds "ro.hardware" st5) as (l6 & S6 & H6).
  destruct (getprop "ro.hardware" st5) as [p_cpu st6].
  simpl snd in *.
  destruct (run_cmd_plain_output "free | grep Mem | awk '{print $2}'" st6)
    as (e7 & c7 & E7 & T7).
  pose proof (run_spawned ["sh"; "-c"; "free | grep Mem | awk '{print $2}'"] st6)
    as S7.
  destruct (run ["sh"; "-c"; "free | grep Mem | awk '{print $2}'"] st6)
    as [free st7].
  rewrite E7. simpl fst in *. simpl snd in *.
  rewrite T7.
  split; [reflexivity|].
  repeat (split; [apply or_env_resolves|]).
  split; [reflexivity|]. split.
  - cbn [ram]. destruct (truthy (accepted_output free)) eqn:T.
    + assert (I : strip (accepted_output free) = accepted_output free).
      { destruct free as [rc out err| |]; try reflexivity. simpl.
        destruct (rc =? 0)%Z; [apply strip_idem|reflexivity]. }
      now rewrite I, T.
    + destruct (open_read "/proc/meminfo" (world st7)) as [text|];
        [|reflexivity].
      destruct (scan_meminfo (readlines text)) as [kb|] eqn:K;
        [|reflexivity].
      now rewrite (scan_meminfo_truthy _ _ K).
  - exists (l1 ++ l2 ++ l3 ++ l4 ++ [["sh"; "-c"; "uname -r"]] ++ l6
              ++ [["sh"; "-c"; "free | grep Mem | awk '{print $2}'"]])%list.
    assert (A : forall c,
               In c (l1 ++ l2 ++ l3 ++ l4 ++ [["sh"; "-c"; "uname -r"]] ++ l6
                       ++ [["sh"; "-c"; "free | grep Mem | awk '{print $2}'"]])%list ->
               c = ["sh"; "-c"; "uname -r"] \/
               c = ["sh"; "-c"; "free | grep Mem | awk '{print $2}'"] \/
               exists prog cmd,
                 c = [prog; "-c"; cmd] /\
                 (cmd = "which getprop" \/ exists prop, cmd = "getprop " ++ prop)).
    { intros c Hc.
      repeat (apply in_app_or in Hc; destruct Hc as [Hc|Hc]);
        try (destruct Hc as [<-|[]]; now auto);
        right; right;
        [ destruct (H1 c Hc) as (prog & cmd & -> & [-> | ->])
        | destruct (H2 c Hc) as (prog & cmd & -> & [-> | ->])
        | destruct (H3 c Hc) as (prog & cmd & -> & [-> | ->])
        | destruct (H4 c Hc) as (prog & cmd & -> & [-> | ->])
        | destruct (H6 c Hc) as (prog & cmd & -> & [-> | ->]) ];
        eauto 8. }
    split; [|split; [|exact A]].
    + rewrite S7, S6, S5, S4, S3, S2, S1.
      now rewrite <- !app_assoc.
    + intros Hin. destruct (A _ Hin) as [E|[E|(prog & cmd & E & [-> | [prop ->]])]];
        discriminate.
Qed.

(** On a machine where no command answers and every environment variable
    is set, the kernel field is the placeholder: no environment variable
    stands in for the kernel, whatever its name. *)
Lemma kernel_has_no_environment_tier :
  let info := fst (get_device_info (Device.boot Device.all_set None)) in
  (forall st : @State (Device.host Device.all_set),
      accepted_output (fst (run ["sh"; "-c"; "uname -r"] st)) = "") /\
  (forall name, @getenv (Device.host Device.all_set) name = Some "custom") /\
  model info = "custom" /\
  kernel info = "Tidak tersedia" /\
  forall name,
    ~ resolves None (@getenv (Device.host Device.all_set) name) (kernel info).
Proof.
  intros info. split; [|split; [|split; [|split]]].
  - intros [w sp]. reflexivity.
  - reflexivity.
  - reflexivity.
  - reflexivity.
  - intros name R. inversion R as [v E|e _ E T|_ [E|E]]; discriminate.
Qed.

(** C9, as the code has it.  When [getprop] is not detected and none of
    the five variables [DEVICE_MODEL], [DEVICE_BOARD], [DEVICE_BRAND],
    [DEVICE_ANDROID] and [DEVICE_CPU] is set, whatever else the
    environment holds, [GET /api/device] answers with a body (status 200)
    in which model, board, brand, android and cpu are the placeholder.
    The kernel is the placeholder when in addition [sh -c 'uname -r']
    yields nothing, and the ram is when the [free] pipeline yields
    nothing and [/proc/meminfo] cannot be read. *)
Theorem device_info_degrades {host : Host} (st : State) :
  (forall s, fst (detect_binary "getprop" s) = false) ->
  (forall name, In name device_variables -> getenv name = None) ->
  exists info pretty st',
    device_info st = (OK (info, pretty), st') /\
    model info = "Tidak tersedia" /\ board info = "Tidak tersedia" /\
    brand info = "Tidak tersedia" /\ android info = "Tidak tersedia" /\
    cpu info = "Tidak tersedia" /\
    ((forall s, accepted_output (fst (run ["sh"; "-c"; "uname -r"] s)) = "") ->
     kernel info = "Tidak tersedia") /\
    ((forall s,
         accepted_output
           (fst (run ["sh"; "-c"; "free | grep Mem | awk '{print $2}'"] s))
         = "") ->
     (forall w, open_read "/proc/meminfo" w = None) ->
     ram info = "Tidak tersedia").
Proof.
  intros Hprop Henv. unfold device_info, get_device_info.
  pose proof (getprop_absent "ro.product.model" st (Hprop st)) as G1.
  destruct (getprop "ro.product.model" st) as [p1 st1].
  pose proof (getprop_absent "ro.product.board" st1 (Hprop st1)) as G2.
  destruct (getprop "ro.product.board" st1) as [p2 st2].
  pose proof (getprop_absent "ro.product.manufacturer" st2 (Hprop st2)) as G3.
  destruct (getprop "ro.product.manufacturer" st2) as [p3 st3].
  pose proof (getprop_absent "ro.build.version.release" st3 (Hprop st3)) as G4.
  destruct (getprop "ro.build.version.release" st3) as [p4 st4].
  destruct (run_cmd_plain_output "uname -r" st4) as (e5 & c5 & E5 & _).
  rewrite E5.
  set (st5 := snd (run ["sh"; "-c"; "uname -r"] st4)).
  pose proof (getprop_absent "ro.hardware" st5 (Hprop st5)) as G6.
  destruct (getprop "ro.hardware" st5) as [p6 st6].
  destruct (run_cmd_plain_output "free | grep Mem | awk '{print $2}'" st6)
    as (e7 & c7 & E7 & T7).
  rewrite E7, T7.
  simpl in G1, G2, G3, G4, G6. subst p1 p2 p3 p4 p6.
  do 3 eexists. split; [reflexivity|].
  unfold or_env.
  rewrite (Henv "DEVICE_MODEL"), (Henv "DEVICE_BOARD"), (Henv "DEVICE_BRAND"),
    (Henv "DEVICE_ANDROID"), (Henv "DEVICE_CPU") by (simpl; tauto).
  cbn [model board brand android cpu kernel ram].
  repeat (split; [reflexivity|]). split.
  - intros Hk. now rewrite (Hk st4).
  - intros Hf Hm. now rewrite (Hf st6), Hm.
Qed.

Lemma device_info_degrades_witness :
  let ph :=
    {| Device.environ := fun name =>
         if String.eqb name "PATH" then Some "/system/bin" else None;
       Device.rooted := true;
       Device.config_path := "/data/adb/modules/YourModule/config.conf";
       Device.root_only := true; Device.commands := [];
       Device.meminfo := None |} in
  @getenv (Device.host ph) "PATH" = Some "/system/bin" /\
  exists info pretty st',
    device_info (Device.boot ph None) = (OK (info, pretty), st') /\
    all_placeholder info.
Proof.
  intros ph. split; [reflexivity|].
  destruct (device_info_degrades (Device.boot ph None))
    as (info & pretty & st' & E & H1 & H2 & H3 & H4 & H5 & Hk & Hr).
  - intros [w sp]. reflexivity.
  - intros name [<-|[<-|[<-|[<-|[<-|[]]]]]]; reflexivity.
  - exists info, pretty, st'. split; [exact E|].
    repeat split; try assumption.
    + apply Hk. intros [w sp]. reflexivity.
    + apply Hr; [intros [w sp]; reflexivity|reflexivity].
Defined.

(** On a machine without [getprop] and with an empty environment, the
    kernel and the ram are still found: not every field is the
    placeholder. *)
Lemma device_info_kernel_found :
  (forall s : @State (Device.host Device.linux_box),
      fst (detect_binary "getprop" s) = false) /\
  (forall name, @getenv (Device.host Device.linux_box) name = None) /\
  exists pretty st',
    device_info (Device.boot Device.linux_box None)
    = (OK ({| model := "Tidak tersedia"; board := "Tidak tersedia";
              brand := "Tidak tersedia"; android := "Tidak tersedia";
              kernel := "5.10.0"; cpu := "Tidak tersedia";
              ram := "2048 kB" |}, pretty), st') /\
    ~ all_placeholder (fst (get_device_info (Device.boot Device.linux_box None))).
Proof.
  split; [|split].
  - intros [w sp]. reflexivity.
  - reflexivity.
  - do 2 eexists. split; [reflexivity|].
    intros (_ & _ & _ & _ & K & _). discriminate.
Qed.

(** C1, on a rooted phone whose file holds the lines [foo=1],
    [mode=otomatis], [bar=2].  Two writes of [statis] in succession both
    succeed, and the content the first one assembles is right.  But the
    first write leaves the file as one line, the content as [repr]
    escaped it.  The second write reads that line back, finds no mode
    line in it, appends one and escapes the whole again.  The file after
    the second write is not the file after the first; it holds no line
    [mode=statis], and the lines [foo=1] and [bar=2] are gone from it. *)
Theorem write_twice_on_phone :
  let st := Device.boot Device.rooted_phone (Some Device.three_lines) in
  let st1 := snd (write_config_mode "statis" st) in
  let st2 := snd (write_config_mode "statis" st1) in
  fst (write_config_mode "statis" st) = Ret true /\
  fst (write_config_mode "statis" st1) = Ret true /\
  splitlines (updated_content "statis" (strip Device.three_lines) 0)
  = ["foo=1"; "mode=statis"; "bar=2"] /\
  Device.config _ st1 = Some "foo=1\nmode=statis\nbar=2\n" /\
  last (spawned st2) []
  = ["su"; "-c";
     "printf '%s' 'foo=1\\nmode=statis\\nbar=2\\n\nmode=statis\n' > /data/adb/modules/YourModule/config.conf"] /\
  Device.config _ st2 = Some "foo=1\\nmode=statis\\nbar=2\\n\nmode=statis\n" /\
  Device.config _ st2 <> Device.config _ st1 /\
  count_occ string_dec (Device.file_lines (Device.config _ st2)) "mode=statis"
  = 0 /\
  ~ In "foo=1" (Device.file_lines (Device.config _ st2)) /\
  ~ In "bar=2" (Device.file_lines (Device.config _ st2)).
Proof.
  repeat split; try reflexivity.
  - vm_compute. discriminate.
  - vm_compute. intros [H|[]]. discriminate.
  - vm_compute. intros [H|[]]. discriminate.
Qed.

(** C2, on a rooted phone.  With the lines [foo=1], [mode=otomatis],
    [bar=2] in the file, a write of [statis] succeeds, and the file
    afterwards is not the file with its mode line replaced in place: it
    is one line, and that line is no mode line.  With the lines [foo=1],
    [bar=2] in the file, a write of [otomatis] succeeds, and no line
    [mode=otomatis] was appended: the file is again one line that is no
    mode line.  In both cases the content assembled is the one the
    specification describes; it is lost in [sh_escape]. *)
Theorem write_in_place_on_phone :
  let plain := "foo=1" ++ nl ++ "bar=2" ++ nl in
  let after text m :=
    Device.file_lines
      (Device.config _
         (snd (write_config_mode m
                 (Device.boot Device.rooted_phone (Some text))))) in
  (fst (write_config_mode "statis"
          (Device.boot Device.rooted_phone (Some Device.three_lines)))
   = Ret true /\
   spec_replace_first "statis" (splitlines Device.three_lines)
   = ["foo=1"; "mode=statis"; "bar=2"] /\
   splitlines (updated_content "statis" (strip Device.three_lines) 0)
   = spec_replace_first "statis" (splitlines Device.three_lines) /\
   after Device.three_lines "statis" = ["foo=1\nmode=statis\nbar=2\n"] /\
   after Device.three_lines "statis"
   <> spec_replace_first "statis" (splitlines Device.three_lines) /\
   count_mode_lines (after Device.three_lines "statis") = 0) /\
  (fst (write_config_mode "otomatis"
          (Device.boot Device.rooted_phone (Some plain)))
   = Ret true /\
   spec_replace_first "otomatis" (splitlines plain)
   = ["foo=1"; "bar=2"; "mode=otomatis"] /\
   splitlines (updated_content "otomatis" (strip plain) 0)
   = spec_replace_first "otomatis" (splitlines plain) /\
   after plain "otomatis" = ["foo=1\nbar=2\nmode=otomatis\n"] /\
   after plain "otomatis" <> spec_replace_first "otomatis" (splitlines plain) /\
   count_mode_lines (after plain "otomatis") = 0).
Proof.
  intros plain after.
  repeat split; try reflexivity; vm_compute; discriminate.
Qed.

(** C3, on a rooted phone whose file holds the lines [foo=1],
    [mode=otomatis], [bar=2].  The write succeeds and the content it
    assembles has the lines [foo=1], [mode=statis], [bar=2].  The command
    it spawns carries that content through [repr]: between the quotes
    each line feed is the two characters backslash and n, which the shell
    and [printf '%s'] keep as they are.  The file ends up as one line
    and not as the three lines of the content.  Whatever the content,
    what [sh_escape] returns holds no line feed. *)
Theorem write_three_lines_on_phone :
  let st := Device.boot Device.rooted_phone (Some Device.three_lines) in
  let st' := snd (write_config_mode "statis" st) in
  (forall content, one_line (sh_escape content) = true) /\
  fst (write_config_mode "statis" st) = Ret true /\
  splitlines (updated_content "statis" (strip Device.three_lines) 0)
  = ["foo=1"; "mode=statis"; "bar=2"] /\
  last (spawned st') []
  = ["su"; "-c";
     "printf '%s' 'foo=1\nmode=statis\nbar=2\n' > /data/adb/modules/YourModule/config.conf"] /\
  Device.config _ st' = Some "foo=1\nmode=statis\nbar=2\n" /\
  Device.file_lines (Device.config _ st') = ["foo=1\nmode=statis\nbar=2\n"] /\
  Device.file_lines (Device.config _ st') <> ["foo=1"; "mode=statis"; "bar=2"].
Proof.
  split; [exact sh_escape_one_line|].
  repeat split; try reflexivity.
  vm_compute. discriminate.
Qed.

(** C4, on the rooted phone.  Without a configuration file, a write of
    [statis] succeeds and the read that follows returns [statis] followed
    by a backslash and an n, not the mode written; the same holds for
    [otomatis].  After the same write on the file with the lines [foo=1],
    [mode=otomatis], [bar=2] the read returns nothing. *)
Theorem read_after_write_on_phone :
  let fresh := Device.boot Device.rooted_phone None in
  let three := Device.boot Device.rooted_phone (Some Device.three_lines) in
  (fst (write_config_mode "statis" fresh) = Ret true /\
   Device.config _ (snd (write_config_mode "statis" fresh))
   = Some "mode=statis\n" /\
   fst (read_config_mode (snd (write_config_mode "statis" fresh)))
   = Ret (Some "statis\n")) /\
  (fst (write_config_mode "otomatis" fresh) = Ret true /\
   Device.config _ (snd (write_config_mode "otomatis" fresh))
   = Some "mode=otomatis\n" /\
   fst (read_config_mode (snd (write_config_mode "otomatis" fresh)))
   = Ret (Some "otomatis\n")) /\
  (fst (write_config_mode "statis" three) = Ret true /\
   Device.config _ (snd (write_config_mode "statis" three))
   = Some "foo=1\nmode=statis\nbar=2\n" /\
   fst (read_config_mode (snd (write_config_mode "statis" three)))
   = Ret None).
Proof.
  intros fresh three. repeat split; reflexivity.
Qed.

(** C7, on the rooted phone.  Without a configuration file, the request
    with mode [" OTOMATIS "] is accepted and echoes [otomatis].  The
    write command carries the content through [repr], and the file then
    holds the single line [mode=otomatis] followed by a backslash and an
    n: [mode=otomatis] is not a line of the file, and the mode read back
    is [unknown].  It is the same when the file held the lines [foo=1],
    [mode=otomatis], [bar=2] before. *)
Theorem set_mode_normalizes_on_phone :
  let fresh := Device.boot Device.rooted_phone None in
  let three := Device.boot Device.rooted_phone (Some Device.three_lines) in
  let stored st :=
    Device.file_lines (Device.config _ (snd (set_mode " OTOMATIS " st))) in
  (fst (set_mode " OTOMATIS " fresh) = OK (true, "otomatis") /\
   last (spawned (snd (set_mode " OTOMATIS " fresh))) []
   = ["su"; "-c";
      "printf '%s' 'mode=otomatis\n' > /data/adb/modules/YourModule/config.conf"] /\
   Device.config _ (snd (set_mode " OTOMATIS " fresh))
   = Some "mode=otomatis\n" /\
   stored fresh = ["mode=otomatis\n"] /\
   ~ In "mode=otomatis" (stored fresh) /\
   fst (get_mode (snd (set_mode " OTOMATIS " fresh)))
   = OK ("unknown", "/data/adb/modules/YourModule/config.conf")) /\
  (fst (set_mode " OTOMATIS " three) = OK (true, "otomatis") /\
   stored three = ["foo=1\nmode=otomatis\nbar=2\n"] /\
   ~ In "mode=otomatis" (stored three) /\
   fst (get_mode (snd (set_mode " OTOMATIS " three)))
   = OK ("unknown", "/data/adb/modules/YourModule/config.conf")).
Proof.
  intros fresh three stored.
  repeat split; try reflexivity; vm_compute; intros [H|[]]; discriminate.
Qed.

(** * Further properties of the program *)

Section Further.

Context {host : Host}.

(** The two ways a call of [run_cmd] ends. *)
Lemma run_cmd_cases (cmd : string) (use_su : bool) (st : State) :
  (exists st',
      run_cmd cmd use_su st = (command_failed, st') /\
      spawned st' = (spawned st ++ try_cmds cmd use_su)%list) \/
  (exists pre c post out err st2,
      try_cmds cmd use_su = (pre ++ c :: post)%list /\
      run_cmd cmd use_su st = ((strip out, or_none (strip err), 0%Z), st2) /\
      spawned st2 = (spawned st ++ pre ++ [c])%list).
Proof.
  unfold run_cmd.
  destruct (fail_through_or_accept (try_cmds cmd use_su) st)
    as [[st' H]|(pre & c & post & s1 & out & err & s2 & H1 & H2 & H3)].
  - left. exists st'. split.
    + now apply run_loop_exhausted.
    + now apply fail_through_spawned.
  - right. exists pre, c, post, out, err, s2. split; [exact H1|]. split.
    + rewrite H1. now apply (run_loop_accepted pre post c st s1 s2).
    + pose proof (run_spawned c s1) as S. rewrite H3 in S. simpl in S.
      now rewrite S, (fail_through_spawned _ _ _ H2), <- app_assoc.
Qed.

Lemma try_cmds_length (cmd : string) (use_su : bool) :
  List.length (try_cmds cmd use_su) = if use_su then 2 else 1.
Proof. now destruct use_su. Qed.

End Further.

(** X1.  Whatever the processes do, [run_cmd] returns the exit status 0
    or 1: a non-zero status of a process is never passed on.  The output
    it returns is trimmed, the error text is absent or a trimmed text
    that is not empty, and with status 1 the output is empty and the
    error text is "Command failed". *)
Theorem run_cmd_result_shape {host : Host} (cmd : string) (use_su : bool)
  (st : State) :
  let '((out, err, code), _) := run_cmd cmd use_su st in
  trimmed out /\
  (code = 0%Z \/ (code = 1%Z /\ out = "" /\ err = Some "Command failed")) /\
  (forall e, err = Some e -> truthy e = true /\ trimmed e).
Proof.
  destruct (run_cmd_cases cmd use_su st)
    as [(st' & E & _)|(pre & c & post & out & err & st2 & _ & E & _)];
    rewrite E; unfold trimmed.
  - split; [reflexivity|]. split; [now right|].
    intros e H. inversion H. now split.
  - split; [apply strip_idem|]. split; [now left|].
    intros e H. unfold or_none in H.
    destruct (truthy (strip err)) eqn:T; [|discriminate].
    inversion H; subst e. split; [exact T|apply strip_idem].
Qed.

(** X2.  A call of [run_cmd] spawns one process or two, never more, and
    they are the first strategies of its list in order: [sh] alone when
    [use_su] is not set.  A strategy is left untried only when an earlier
    one completed with exit status 0. *)
Theorem run_cmd_spawns_at_most_two {host : Host} (cmd : string)
  (use_su : bool) (st : State) :
  exists l post,
    spawned (snd (run_cmd cmd use_su st)) = (spawned st ++ l)%list /\
    try_cmds cmd use_su = (l ++ post)%list /\
    1 <= List.length l <= (if use_su then 2 else 1) /\
    (post <> [] -> snd (fst (run_cmd cmd use_su st)) = 0%Z).
Proof.
  pose proof (try_cmds_length cmd use_su) as L.
  destruct (run_cmd_cases cmd use_su st)
    as [(st' & E & S)|(pre & c & post & out & err & st2 & T & E & S)];
    rewrite E; cbn [fst snd].
  - exists (try_cmds cmd use_su), []. rewrite app_nil_r.
    repeat split; try assumption; try (rewrite L; destruct use_su; lia).
    intros N. now contradiction N.
  - exists (pre ++ [c])%list, post.
    rewrite T, length_app in L. cbn [List.length] in L.
    rewrite length_app. cbn [List.length].
    split; [exact S|]. split; [now rewrite T, <- app_assoc|].
    split; [destruct use_su; lia|reflexivity].
Qed.

Section Traces.

Context {host : Host}.

Lemma runs_of_app (cmd : string) (a b : list (list string)) :
  runs_of cmd (a ++ b) = runs_of cmd a + runs_of cmd b.
Proof. unfold runs_of. now rewrite filter_app, length_app. Qed.

Lemma runs_of_all (cmd : string) (l : list (list string)) :
  Forall (fun c => command_of c = cmd) l -> runs_of cmd l = List.length l.
Proof.
  unfold runs_of. induction 1 as [|c l Hc _ IH]; [reflexivity|].
  simpl. rewrite Hc, String.eqb_refl. simpl. now rewrite IH.
Qed.

Lemma runs_of_none (cmd other : string) (l : list (list string)) :
  Forall (fun c => command_of c = other) l -> other <> cmd ->
  runs_of cmd l = 0.
Proof.
  unfold runs_of. intros F N. induction F as [|c l Hc _ IH]; [reflexivity|].
  simpl. rewrite Hc. apply String.eqb_neq in N. now rewrite N.
Qed.

(** What one call of [run_cmd] appends to the trace. *)
Lemma run_cmd_trace (cmd : string) (use_su : bool) (st : State) :
  exists l,
    spawned (snd (run_cmd cmd use_su st)) = (spawned st ++ l)%list /\
    1 <= List.length l <= 2 /\
    Forall (fun c => command_of c = cmd) l.
Proof.
  destruct (run_cmd_spawned cmd use_su st) as (l & post & E & N & S).
  exists l. split; [exact S|]. split.
  - pose proof (try_cmds_length cmd use_su) as L.
    rewrite E, length_app in L. destruct l; [congruence|].
    simpl in *. destruct use_su; lia.
  - assert (F : Forall (fun c => command_of c = cmd) (try_cmds cmd use_su)).
    { unfold try_cmds. destruct use_su; repeat constructor. }
    rewrite E in F. now apply Forall_app in F.
Qed.

Lemma detect_binary_trace (name : string) (st : State) :
  exists l,
    spawned (snd (detect_binary name st)) = (spawned st ++ l)%list /\
    1 <= List.length l <= 2 /\
    Forall (fun c => command_of c = "which " ++ name) l.
Proof.
  unfold detect_binary.
  destruct (run_cmd_trace ("which " ++ name) true st) as (l & S & B & F).
  destruct (run_cmd ("which " ++ name) true st) as [[[out err] code] st1].
  now exists l.
Qed.

(** What one call of [getprop] appends to the trace: the detection, then
    the query when the detection succeeded. *)
Lemma getprop_trace (prop : string) (st : State) :
  exists l1 l2,
    spawned (snd (getprop prop st)) = (spawned st ++ l1 ++ l2)%list /\
    1 <= List.length l1 <= 2 /\ List.length l2 <= 2 /\
    Forall (fun c => command_of c = "which getprop") l1 /\
    Forall (fun c => command_of c = "getprop " ++ prop) l2 /\
    (fst (detect_binary "getprop" st) = false -> l2 = []).
Proof.
  unfold getprop.
  destruct (detect_binary_trace "getprop" st) as (l1 & S1 & B1 & F1).
  destruct (detect_binary "getprop" st) as [found st1]. cbn [fst snd] in *.
  destruct found.
  - destruct (run_cmd_trace ("getprop " ++ prop) true st1) as (l2 & S2 & B2 & F2).
    destruct (run_cmd ("getprop " ++ prop) true st1)
      as [[[out err] code] st2].
    cbn [snd] in S2. exists l1, l2.
    split; [|repeat split; try assumption; try lia; discriminate].
    destruct ((code =? 0)%Z && truthy out); cbn [snd];
      now rewrite S2, S1, app_assoc.
  - exists l1, []. rewrite app_nil_r.
    repeat split; try assumption; try lia; auto.
Qed.

Lemma getprop_value (prop : string) (st : State) (v : string) :
  fst (getprop prop st) = Some v ->
  truthy v = true /\ trimmed v /\ fst (detect_binary "getprop" st) = true.
Proof.
  unfold getprop.
  destruct (detect_binary "getprop" st) as [found st1]. cbn [fst].
  destruct found; [|discriminate].
  pose proof (run_cmd_output_trimmed ("getprop " ++ prop) true st1) as T.
  destruct (run_cmd ("getprop " ++ prop) true st1) as [[[out err] code] st2].
  cbn [fst] in T. destruct T as [raw ->].
  destruct ((code =? 0)%Z && truthy (strip raw)) eqn:E; [|discriminate].
  cbn [fst]. intros H. inversion H; subst v.
  apply andb_prop in E. destruct E as [_ E].
  repeat split; [exact E|apply strip_idem].
Qed.

End Traces.

(** X3.  [getprop] returns a value only when [which getprop] was
    accepted, and that value is trimmed and not empty.  When the
    detection fails the query is not spawned at all.  A call spawns
    between one and four processes, at least one of them a
    [which getprop]: the detection is repeated for every property. *)
Theorem getprop_contract {host : Host} (prop : string) (st : State) :
  (forall v, fst (getprop prop st) = Some v ->
     truthy v = true /\ trimmed v /\
     fst (detect_binary "getprop" st) = true) /\
  exists l,
    spawned (snd (getprop prop st)) = (spawned st ++ l)%list /\
    1 <= List.length l <= 4 /\
    1 <= runs_of "which getprop" l /\
    (fst (detect_binary "getprop" st) = false ->
     fst (getprop prop st) = None /\
     runs_of ("getprop " ++ prop) l = 0).
Proof.
  split; [intros v; apply getprop_value|].
  destruct (getprop_trace prop st) as (l1 & l2 & S & B1 & B2 & F1 & F2 & N).
  exists (l1 ++ l2)%list. split; [exact S|].
  rewrite length_app, !runs_of_app, (runs_of_all _ _ F1).
  split; [lia|]. split; [lia|].
  intros D. split; [now apply getprop_absent|].
  rewrite (N D). rewrite (runs_of_none _ _ _ F1); [reflexivity|].
  discriminate.
Qed.

Section Fields.

Context {host : Host}.

Lemma truthy_app_r (a b : string) : truthy b = true -> truthy (a ++ b) = true.
Proof. destruct a; [now intros|reflexivity]. Qed.

Lemma or_env_truthy (live : option string) (name : string) :
  (forall v, live = Some v -> truthy v = true) ->
  truthy (or_env live name) = true.
Proof.
  intros H. unfold or_env. destruct live as [v|]; [now apply H|].
  destruct (getenv name) as [e|]; [|reflexivity].
  destruct (truthy e) eqn:T; [exact T|reflexivity].
Qed.

Lemma solid_ends (w : string) :
  all_chars (fun c => negb (isspace c)) w = true -> truthy w = true ->
  ends_solid w = true.
Proof.
  induction w as [|c w IH]; [discriminate|].
  simpl. intros H _. apply andb_prop in H. destruct H as [Hc Hw].
  destruct w as [|d w]; [exact Hc|]. now apply IH.
Qed.

(** A text without any space is trimmed. *)
Lemma solid_trimmed (w : string) :
  all_chars (fun c => negb (isspace c)) w = true -> trimmed w.
Proof.
  intros H. unfold trimmed, strip. destruct w as [|c w]; [reflexivity|].
  rewrite lstrip_solid.
  - apply rstrip_solid. now apply solid_ends.
  - simpl in *. now apply andb_prop in H.
Qed.

Lemma all_chars_snoc p (cur : string) (c : ascii) :
  all_chars p cur = true -> p c = true ->
  all_chars p (cur ++ String c "") = true.
Proof.
  intros H Hc. rewrite all_chars_app, H. simpl. now rewrite Hc.
Qed.

(** The words [split] returns hold no space. *)
Lemma words_from_solid (s : string) :
  forall cur,
    all_chars (fun c => negb (isspace c)) cur = true ->
    Forall (fun w => all_chars (fun c => negb (isspace c)) w = true)
      (words_from cur s).
Proof.
  induction s as [|c s IH]; intros cur H; simpl.
  - destruct (is_empty cur); auto.
  - destruct (isspace c) eqn:Hc.
    + destruct (is_empty cur); [now apply IH|].
      constructor; [exact H|now apply IH].
    + apply IH. apply all_chars_snoc; [exact H|now rewrite Hc].
Qed.

Lemma scan_meminfo_word (lines : list string) (kb : string) :
  scan_meminfo lines = Some kb -> truthy kb = true /\ trimmed kb.
Proof.
  intros H. split; [now apply (scan_meminfo_truthy lines)|].
  induction lines as [|l lines IH]; [discriminate|].
  change (scan_meminfo (l :: lines))
    with (if startswith l "MemTotal:" then nth_error (split l) 1
          else scan_meminfo lines) in H.
  destruct (startswith l "MemTotal:"); [|now apply IH].
  apply nth_error_In in H.
  pose proof (words_from_solid l "" eq_refl) as F.
  rewrite Forall_forall in F. apply solid_trimmed. now apply F.
Qed.

(** A plain [run_cmd] appends its one [sh] process to the trace. *)
Lemma run_cmd_plain_trace (cmd : string) (st : State) :
  spawned (snd (run_cmd cmd false st))
  = (spawned st ++ [["sh"; "-c"; cmd]])%list.
Proof.
  destruct (run_cmd_plain_output cmd st) as (e & code & E & _).
  rewrite E. cbn [snd]. apply run_spawned.
Qed.

End Fields.

(** One step of [get_device_info]: names the result of the next call of
    [getprop] and keeps what is known of its value and of its trace. *)
Ltac next_getprop p st' V T :=
  match goal with
  | |- context [getprop ?prop ?st] =>
      pose proof (getprop_value prop st) as V;
      pose proof (getprop_trace prop st) as T;
      destruct (getprop prop st) as [p st'];
      cbn [fst snd] in V, T
  end.

(** The same for the next call of [run_cmd]. *)
Ltac next_run_cmd out code st' O T :=
  match goal with
  | |- context [run_cmd ?cmd false ?st] =>
      pose proof (run_cmd_output_trimmed cmd false st) as O;
      pose proof (run_cmd_plain_trace cmd st) as T;
      destruct (run_cmd cmd false st) as [[[out ?] code] st'];
      cbn [fst snd] in O, T
  end.

(** X4.  No field of the device information is ever the empty text:
    each holds a value that is not empty or the placeholder. *)
Theorem device_info_fields_not_empty {host : Host} (st : State) :
  let info := fst (get_device_info st) in
  truthy (model info) = true /\ truthy (board info) = true /\
  truthy (brand info) = true /\ truthy (android info) = true /\
  truthy (kernel info) = true /\ truthy (cpu info) = true /\
  truthy (ram info) = true.
Proof.
  unfold get_device_info.
  next_getprop p1 st1 V1 T1. next_getprop p2 st2 V2 T2.
  next_getprop p3 st3 V3 T3. next_getprop p4 st4 V4 T4.
  next_run_cmd ko kc st5 O5 T5.
  next_getprop p6 st6 V6 T6.
  next_run_cmd fo fc st7 O7 T7.
  cbn [fst model board brand android kernel cpu ram].
  split; [apply or_env_truthy; intros v E; exact (proj1 (V1 v E))|].
  split; [apply or_env_truthy; intros v E; exact (proj1 (V2 v E))|].
  split; [apply or_env_truthy; intros v E; exact (proj1 (V3 v E))|].
  split; [apply or_env_truthy; intros v E; exact (proj1 (V4 v E))|].
  split; [destruct (truthy ko) eqn:K; [exact K|reflexivity]|].
  split; [apply or_env_truthy; intros v E; exact (proj1 (V6 v E))|].
  destruct ((fc =? 0)%Z && truthy fo) eqn:F.
  - destruct (truthy (strip fo)) eqn:K; [|reflexivity].
    now apply truthy_app_r.
  - destruct (open_read "/proc/meminfo" (world st7)) as [text|];
      [|reflexivity].
    destruct (scan_meminfo (readlines text)) as [kb|]; [|reflexivity].
    destruct (truthy kb); [now apply truthy_app_r|reflexivity].
Qed.

(** X5.  The kernel field is a trimmed text.  The ram field is the
    placeholder, or a trimmed text that is not empty followed by a space
    and [kB]. *)
Theorem device_info_kernel_ram_shape {host : Host} (st : State) :
  let info := fst (get_device_info st) in
  trimmed (kernel info) /\
  (ram info = "Tidak tersedia" \/
   exists kb, ram info = kb ++ " kB" /\ truthy kb = true /\ trimmed kb).
Proof.
  unfold get_device_info.
  next_getprop p1 st1 V1 T1. next_getprop p2 st2 V2 T2.
  next_getprop p3 st3 V3 T3. next_getprop p4 st4 V4 T4.
  next_run_cmd ko kc st5 O5 T5.
  next_getprop p6 st6 V6 T6.
  next_run_cmd fo fc st7 O7 T7.
  cbn [fst kernel ram]. split.
  - destruct (truthy ko); [|reflexivity].
    destruct O5 as [raw ->]. apply strip_idem.
  - destruct ((fc =? 0)%Z && truthy fo) eqn:F.
    + destruct (truthy (strip fo)) eqn:K; [|now left].
      right. exists (strip fo). repeat split; [exact K|apply strip_idem].
    + destruct (open_read "/proc/meminfo" (world st7)) as [text|];
        [|now left].
      destruct (scan_meminfo (readlines text)) as [kb|] eqn:S; [|now left].
      destruct (scan_meminfo_word _ _ S) as [K W].
      rewrite K. right. now exists kb.
Qed.

(** X6.  Collecting the device information spawns between 7 and 22
    processes.  [which getprop] is run at least five times, once for
    every property, and [uname -r] and the [free] pipeline exactly once
    each. *)
Theorem device_info_spawn_bounds {host : Host} (st : State) :
  exists l,
    spawned (snd (get_device_info st)) = (spawned st ++ l)%list /\
    7 <= List.length l <= 22 /\
    5 <= runs_of "which getprop" l /\
    runs_of "uname -r" l = 1 /\
    runs_of "free | grep Mem | awk '{print $2}'" l = 1.
Proof.
  unfold get_device_info.
  next_getprop p1 st1 V1 T1. next_getprop p2 st2 V2 T2.
  next_getprop p3 st3 V3 T3. next_getprop p4 st4 V4 T4.
  next_run_cmd ko kc st5 O5 T5.
  next_getprop p6 st6 V6 T6.
  next_run_cmd fo fc st7 O7 T7.
  cbn [snd].
  destruct T1 as (a1 & b1 & S1 & A1 & B1 & FA1 & FB1 & _).
  destruct T2 as (a2 & b2 & S2 & A2 & B2 & FA2 & FB2 & _).
  destruct T3 as (a3 & b3 & S3 & A3 & B3 & FA3 & FB3 & _).
  destruct T4 as (a4 & b4 & S4 & A4 & B4 & FA4 & FB4 & _).
  destruct T6 as (a6 & b6 & S6 & A6 & B6 & FA6 & FB6 & _).
  exists (a1 ++ b1 ++ a2 ++ b2 ++ a3 ++ b3 ++ a4 ++ b4
            ++ [["sh"; "-c"; "uname -r"]] ++ a6 ++ b6
            ++ [["sh"; "-c"; "free | grep Mem | awk '{print $2}'"]])%list.
  split.
  - rewrite T7, S6, T5, S4, S3, S2, S1. now rewrite <- !app_assoc.
  - rewrite !length_app, !runs_of_app.
    rewrite (runs_of_all _ _ FA1), (runs_of_all _ _ FA2),
      (runs_of_all _ _ FA3), (runs_of_all _ _ FA4), (runs_of_all _ _ FA6).
    rewrite !(runs_of_none "uname -r" _ _ FA1),
      !(runs_of_none "uname -r" _ _ FA2), !(runs_of_none "uname -r" _ _ FA3),
      !(runs_of_none "uname -r" _ _ FA4), !(runs_of_none "uname -r" _ _ FA6),
      !(runs_of_none "uname -r" _ _ FB1), !(runs_of_none "uname -r" _ _ FB2),
      !(runs_of_none "uname -r" _ _ FB3), !(runs_of_none "uname -r" _ _ FB4),
      !(runs_of_none "uname -r" _ _ FB6) by discriminate.
    rewrite !(runs_of_none "free | grep Mem | awk '{print $2}'" _ _ FA1),
      !(runs_of_none "free | grep Mem | awk '{print $2}'" _ _ FA2),
      !(runs_of_none "free | grep Mem | awk '{print $2}'" _ _ FA3),
      !(runs_of_none "free | grep Mem | awk '{print $2}'" _ _ FA4),
      !(runs_of_none "free | grep Mem | awk '{print $2}'" _ _ FA6),
      !(runs_of_none "free | grep Mem | awk '{print $2}'" _ _ FB1),
      !(runs_of_none "free | grep Mem | awk '{print $2}'" _ _ FB2),
      !(runs_of_none "free | grep Mem | awk '{print $2}'" _ _ FB3),
      !(runs_of_none "free | grep Mem | awk '{print $2}'" _ _ FB4),
      !(runs_of_none "free | grep Mem | awk '{print $2}'" _ _ FB6)
      by discriminate.
    cbn [List.length]. 
    change (runs_of "uname -r" [["sh"; "-c"; "uname -r"]]) with 1.
    change (runs_of "uname -r"
              [["sh"; "-c"; "free | grep Mem | awk '{print $2}'"]]) with 0.
    change (runs_of "free | grep Mem | awk '{print $2}'"
              [["sh"; "-c"; "uname -r"]]) with 0.
    change (runs_of "free | grep Mem | awk '{print $2}'"
              [["sh"; "-c"; "free | grep Mem | awk '{print $2}'"]]) with 1.
    repeat split; lia.
Qed.

Section Store.

Context {host : Host}.

(** A write of a valid mode returns a truth value: it raises nothing. *)
Lemma write_config_mode_returns (m : string) (st : State) :
  in_modes m = true -> exists b, fst (write_config_mode m st) = Ret b.
Proof.
  intros H. unfold write_config_mode. rewrite H. cbn [negb].
  destruct (run_cmd ("cat " ++ CONFIG_PATH) true st) as [[[out err] code] st1].
  destruct (run_cmd (echo_cmd (updated_content m out code)) true st1)
    as [[[out2 err2] code2] st2].
  now eexists.
Qed.

(** The scan of the lines read raises nothing, and the value it returns
    is trimmed. *)
Lemma scan_mode_returns (lines : list string) :
  exists r, scan_mode lines = Ret r /\ forall v, r = Some v -> trimmed v.
Proof.
  destruct (scan_mode_cases lines)
    as [[E _]|(pre & l & post & v & _ & _ & _ & E)]; rewrite E.
  - exists None. split; [reflexivity|discriminate].
  - exists (Some (strip v)). split; [reflexivity|].
    intros w H. inversion H. apply strip_idem.
Qed.

End Store.

(** X8.  [POST /api/mode] has three answers and no other: the client
    error 400 when the mode, lowercased and trimmed, is not one of the
    two literals, and then the state is untouched; the server error 500
    when the mode is valid and the write returned false; the body with
    the normalised mode when the write returned true.  The [ValueError]
    of [write_config_mode] never reaches the framework, and the mode
    echoed is its own normal form. *)
Theorem set_mode_responses {host : Host} (payload_mode : string)
  (st : State) :
  let mode := strip (lower payload_mode) in
  match fst (set_mode payload_mode st) with
  | OK (ok, echoed) =>
      ok = true /\ echoed = mode /\ in_modes mode = true /\
      strip (lower echoed) = echoed /\
      fst (write_config_mode mode st) = Ret true
  | HTTPException status_code _ =>
      (status_code = 400%Z /\ in_modes mode = false /\
       snd (set_mode payload_mode st) = st) \/
      (status_code = 500%Z /\ in_modes mode = true /\
       fst (write_config_mode mode st) = Ret false)
  | Uncaught _ => False
  end.
Proof.
  intros mode. unfold set_mode. fold mode.
  destruct (in_modes mode) eqn:H; cbn [negb fst snd]; [|now left].
  destruct (write_config_mode_returns mode st H) as [b B].
  destruct (write_config_mode mode st) as [r st1]. cbn [fst] in B. subst r.
  destruct b; cbn [negb fst].
  - repeat split; try reflexivity; try assumption.
    destruct (in_modes_cases mode H) as [-> | ->]; reflexivity.
  - right. now repeat split.
Qed.

(** X9.  When the [cat] of the configuration file fails, or prints
    nothing but white space, a write of a valid mode still goes on to
    its write command, and the content it carries is the single line
    [mode=<value>]: nothing of what the file may hold is carried over.
    In the command the line feed of the content is written as a
    backslash and an n. *)
Theorem write_after_failed_read {host : Host} (m : string) (st : State) :
  in_modes m = true ->
  let '((out, _, code), st1) := run_cmd ("cat " ++ CONFIG_PATH) true st in
  (code =? 0)%Z && truthy out = false ->
  exists l,
    spawned (snd (write_config_mode m st)) = (spawned st1 ++ l)%list /\
    l <> [] /\
    Forall
      (fun c =>
         command_of c = "printf '%s' 'mode=" ++ m ++ "\n' > " ++ CONFIG_PATH)
      l.
Proof.
  intros H. pose proof (write_config_mode_spawned m st H) as W.
  destruct (run_cmd ("cat " ++ CONFIG_PATH) true st) as [[[out err] code] st1].
  intros F. destruct W as (l & S & N & A).
  exists l. split; [exact S|]. split; [exact N|].
  apply Forall_forall. intros c Hc. destruct (A c Hc) as [prog ->].
  unfold command_of. cbn [nth].
  unfold updated_content. rewrite F.
  destruct (in_modes_cases m H) as [-> | ->]; reflexivity.
Qed.

Lemma write_after_failed_read_witness :
  let st := Device.boot Device.rooted_phone None in
  exists l,
    spawned (snd (write_config_mode "statis" st))
    = ([["su"; "-c"; "cat /data/adb/modules/YourModule/config.conf"];
        ["sh"; "-c"; "cat /data/adb/modules/YourModule/config.conf"]]
         ++ l)%list /\
    l <> [] /\
    Forall
      (fun c =>
         command_of c
         = "printf '%s' 'mode=statis\n' > /data/adb/modules/YourModule/config.conf")
      l.
Proof.
  intros st.
  exact (write_after_failed_read "statis" st eq_refl eq_refl).
Defined.

(** X10.  Reading the mode raises nothing and is read-only on the
    trace: it spawns one or two processes, each a [cat] of the
    configuration file, and [GET /api/mode] spawns nothing more.  A
    value it returns is trimmed. *)
Theorem read_config_mode_reads_only {host : Host} (st : State) :
  exists r l,
    fst (read_config_mode st) = Ret r /\
    (forall v, r = Some v -> trimmed v) /\
    spawned (snd (read_config_mode st)) = (spawned st ++ l)%list /\
    1 <= List.length l <= 2 /\
    Forall (fun c => command_of c = "cat " ++ CONFIG_PATH) l /\
    snd (get_mode st) = snd (read_config_mode st).
Proof.
  unfold get_mode, read_config_mode.
  destruct (run_cmd_trace ("cat " ++ CONFIG_PATH) true st) as (l & S & B & F).
  destruct (run_cmd ("cat " ++ CONFIG_PATH) true st) as [[[out err] code] st1].
  cbn [snd] in S.
  destruct (negb (code =? 0)%Z || negb (truthy out)).
  - exists None, l. cbn [fst snd]. repeat split; try assumption; try lia.
    discriminate.
  - destruct (scan_mode_returns (splitlines out)) as (r & E & T).
    rewrite E. exists r, l. cbn [fst snd].
    repeat split; try assumption; lia.
Qed.

Section Format.

(** The scan of the lines a write assembles returns the mode written. *)
Lemma scan_mode_rewritten (m : string) (lines : list string) :
  in_modes m = true -> scan_mode (rewritten m lines) = Ret (Some m).
Proof.
  intros H.
  destruct (scan_mode_cases (rewritten m lines))
    as [[_ N]|(pre & l & post & v & E & _ & Hl & S)].
  - pose proof (rewritten_has_mode m lines H) as X.
    apply existsb_exists in X. destruct X as (l & Hin & Hl).
    rewrite (N l Hin) in Hl. discriminate.
  - rewrite S.
    assert (Hin : In l (rewritten m lines)) by (rewrite E; apply in_elt).
    assert (Ml : is_mode_line l = true).
    { apply is_mode_line_iff. now exists v. }
    rewrite (rewritten_mode_lines m lines l Hin Ml) in Hl.
    destruct (in_modes_cases m H) as [-> | ->];
      cbv in Hl; inversion Hl; reflexivity.
Qed.

Lemma all_chars_impl (p q : ascii -> bool) (s : string) :
  (forall c, p c = true -> q c = true) ->
  all_chars p s = true -> all_chars q s = true.
Proof.
  intros I. induction s as [|c s IH]; [reflexivity|]. simpl.
  intros H. apply andb_prop in H. destruct H as [Hc Hs].
  now rewrite (I c Hc), IH.
Qed.

Lemma all_chars_join p (sep : string) (L : list string) :
  all_chars p sep = true ->
  Forall (fun l => all_chars p l = true) L ->
  all_chars p (join sep L) = true.
Proof.
  intros Hs F. induction F as [|x L Hx F IH]; [reflexivity|].
  destruct L as [|y L]; [exact Hx|].
  change (join sep (x :: y :: L)) with (x ++ sep ++ join sep (y :: L)).
  now rewrite !all_chars_app, Hx, Hs, IH.
Qed.

End Format.

(** X11.  The reader and the writer agree on the format.  When the [cat]
    of the configuration file prints the content that a write of a valid
    mode assembled from a trimmed text, [read_config_mode] returns that
    mode. *)
Theorem content_reads_back {host : Host} (m raw : string) (code : Z)
  (st : State) (e : option string) :
  in_modes m = true ->
  let content := updated_content m (strip raw) code in
  fst (run_cmd ("cat " ++ CONFIG_PATH) true st) = (strip content, e, 0%Z) ->
  fst (read_config_mode st) = Ret (Some m).
Proof.
  intros H content R. unfold read_config_mode.
  destruct (run_cmd ("cat " ++ CONFIG_PATH) true st) as [[[out err] c] st1].
  cbn [fst] in R. inversion R; subst out err c. clear R.
  unfold content. rewrite updated_content_lines.
  set (L := rewritten m (lines_read (strip raw) code)).
  assert (HL : framed L).
  { apply rewritten_framed; [exact H|apply lines_read_framed]. }
  assert (HF : Forall (fun l => one_line l = true) L).
  { apply rewritten_one_line; [exact H|apply lines_read_one_line]. }
  destruct (framed_round_trip L HL HF) as (E1 & E2 & E3).
  rewrite E1, E2, E3. cbn [Z.eqb negb orb fst].
  now apply scan_mode_rewritten.
Qed.

Lemma content_reads_back_witness :
  let content := updated_content "statis" (strip Device.three_lines) 0 in
  let st := Device.boot Device.rooted_phone (Some content) in
  content = "foo=1" ++ nl ++ "mode=statis" ++ nl ++ "bar=2" ++ nl /\
  fst (read_config_mode st) = Ret (Some "statis").
Proof.
  intros content st. split; [reflexivity|].
  apply (content_reads_back "statis" Device.three_lines 0 st None);
    reflexivity.
Defined.

(** X12.  The content a write of a valid mode assembles from a trimmed
    text is in a normal form: it is its own trimmed text followed by one
    line feed, so it begins with a character that is not a space and has
    no blank line at its end, and the line feed is the only line boundary
    in it: a carriage return of the text read is not carried over. *)
Theorem content_is_normalised (m raw : string) (code : Z) :
  in_modes m = true ->
  let content := updated_content m (strip raw) code in
  content = strip content ++ nl /\
  starts_solid content = true /\
  all_chars (fun c => negb (is_linebreak c) || Ascii.eqb c LF) content = true.
Proof.
  intros H content. unfold content. rewrite updated_content_lines.
  set (L := rewritten m (lines_read (strip raw) code)).
  assert (HL : framed L).
  { apply rewritten_framed; [exact H|apply lines_read_framed]. }
  assert (HF : Forall (fun l => one_line l = true) L).
  { apply rewritten_one_line; [exact H|apply lines_read_one_line]. }
  destruct (framed_round_trip L HL HF) as (E1 & _ & _).
  rewrite E1. split; [reflexivity|]. split.
  - destruct HL as [(h & rest & -> & Hh) _]. now apply join_head_solid.
  - rewrite all_chars_app. apply andb_true_intro. split; [|reflexivity].
    apply all_chars_join; [reflexivity|].
    eapply Forall_impl; [|exact HF].
    intros l Hl. apply (all_chars_impl (fun c => negb (is_linebreak c)));
      [|exact Hl].
    intros c Hc. now rewrite Hc.
Qed.

Lemma content_is_normalised_witness :
  let raw := "a=1" ++ String CR nl ++ "mode=x" ++ String CR nl ++ nl in
  let content := updated_content "otomatis" (strip raw) 0 in
  content = "a=1" ++ nl ++ "mode=otomatis" ++ nl /\
  content = strip content ++ nl.
Proof.
  intros raw content. split; [reflexivity|].
  apply (content_is_normalised "otomatis" raw 0). reflexivity.
Defined.

Section Degraded.

Context {host : Host}.

Hypothesis no_success :
  forall c w, zero_exit (fst (subprocess_run c w)) = false.

Lemma run_fails (c : list string) (st : State) :
  zero_exit (fst (run c st)) = false.
Proof.
  unfold run. pose proof (no_success c (world st)) as H.
  now destruct (subprocess_run c (world st)).
Qed.

Lemma run_cmd_fails (cmd : string) (use_su : bool) (st : State) :
  fst (run_cmd cmd use_su st) = command_failed.
Proof.
  unfold run_cmd.
  destruct (fail_through_or_accept (try_cmds cmd use_su) st)
    as [[st' H]|(pre & c & post & s1 & out & err & s2 & _ & _ & R)].
  - now rewrite (run_loop_exhausted _ _ _ H).
  - pose proof (run_fails c s1) as F. rewrite R in F. discriminate.
Qed.

Lemma getprop_fails (prop : string) (st : State) :
  fst (getprop prop st) = None.
Proof.
  apply getprop_absent. unfold detect_binary.
  pose proof (run_cmd_fails ("which " ++ "getprop") true st) as F.
  destruct (run_cmd ("which " ++ "getprop") true st)
    as [[[out err] code] st1].
  cbn [fst] in *. now inversion F.
Qed.

End Degraded.

(** A machine of the model on which no command completes with exit
    status 0. *)
Lemma no_success_on_all_set (c : list string) (w : Device.File) :
  zero_exit (fst (Device.exec Device.all_set c w)) = false.
Proof.
  destruct c as [|prog [|flag [|cmd [|x c]]]]; try reflexivity.
  unfold Device.exec.
  destruct (String.eqb flag "-c"); [|reflexivity].
  destruct (String.eqb prog "su"); [reflexivity|].
  destruct (String.eqb prog "sh"); [|reflexivity].
  unfold Device.sh.
  destruct (Device.parse cmd) as [path|text path|];
    unfold Device.may_access; cbn [Device.root_only Device.all_set negb orb];
    rewrite ?andb_false_r; reflexivity.
Qed.

(** X13.  On a host where no process completes with exit status 0 (no
    shell, no permission, every command failing), the service degrades
    and raises nothing: [GET /api/mode] answers [unknown], a request to
    set a valid mode is answered with the server error 500, [getprop]
    returns nothing and the kernel field is the placeholder. *)
Theorem nothing_runs {host : Host} (st : State) :
  (forall c w, zero_exit (fst (subprocess_run c w)) = false) ->
  fst (get_mode st) = OK ("unknown", CONFIG_PATH) /\
  (forall payload_mode,
      in_modes (strip (lower payload_mode)) = true ->
      exists detail,
        fst (set_mode payload_mode st) = HTTPException 500 detail) /\
  (forall prop, fst (getprop prop st) = None) /\
  kernel (fst (get_device_info st)) = "Tidak tersedia".
Proof.
  intros F. split; [|split; [|split]].
  - unfold get_mode, read_config_mode.
    pose proof (run_cmd_fails F ("cat " ++ CONFIG_PATH) true st) as R.
    destruct (run_cmd ("cat " ++ CONFIG_PATH) true st) as [[[out err] code] st1].
    cbn [fst] in R. inversion R. reflexivity.
  - intros payload_mode H. unfold set_mode, write_config_mode.
    rewrite H. cbn [negb].
    destruct (run_cmd ("cat " ++ CONFIG_PATH) true st) as [[[out err] code] st1].
    pose proof (run_cmd_fails F
                  (echo_cmd (updated_content (strip (lower payload_mode)) out code))
                  true st1) as R.
    destruct (run_cmd
                (echo_cmd (updated_content (strip (lower payload_mode)) out code))
                true st1) as [[[out2 err2] code2] st2].
    cbn [fst] in R. inversion R. cbn. now eexists.
  - intros prop. now apply getprop_fails.
  - unfold get_device_info.
    next_getprop p1 st1 V1 T1. next_getprop p2 st2 V2 T2.
    next_getprop p3 st3 V3 T3. next_getprop p4 st4 V4 T4.
    pose proof (run_cmd_fails F "uname -r" false st4) as R.
    destruct (run_cmd "uname -r" false st4) as [[[ko ke] kc] st5].
    cbn [fst] in R. inversion R; subst.
    next_getprop p6 st6 V6 T6.
    destruct (run_cmd "free | grep Mem | awk '{print $2}'" false st6)
      as [[[fo fe] fc] st7].
    reflexivity.
Qed.

Lemma nothing_runs_witness :
  let st := Device.boot Device.all_set (Some Device.three_lines) in
  fst (get_mode st) = OK ("unknown", "/data/adb/modules/custom/config.conf") /\
  exists detail, fst (set_mode "statis" st) = HTTPException 500 detail.
Proof.
  intros st.
  destruct (nothing_runs st no_success_on_all_set) as (G & S & _).
  split; [exact G|]. now apply S.
Defined.

Section Normal.

Lemma lower_char_idem (c : ascii) : lower_char (lower_char c) = lower_char c.
Proof. destruct c as [[] [] [] [] [] [] [] []]; reflexivity. Qed.

Lemma isspace_lower_char (c : ascii) : isspace (lower_char c) = isspace c.
Proof. destruct c as [[] [] [] [] [] [] [] []]; reflexivity. Qed.

Lemma lower_idem (s : string) : lower (lower s) = lower s.
Proof.
  induction s as [|c s IH]; [reflexivity|].
  simpl. now rewrite lower_char_idem, IH.
Qed.

Lemma lower_lstrip (s : string) : lower (lstrip s) = lstrip (lower s).
Proof.
  induction s as [|c s IH]; [reflexivity|].
  simpl. rewrite isspace_lower_char. now destruct (isspace c).
Qed.

Lemma is_empty_lower (s : string) : is_empty (lower s) = is_empty s.
Proof. now destruct s. Qed.

Lemma lower_rstrip (s : string) : lower (rstrip s) = rstrip (lower s).
Proof.
  induction s as [|c s IH]; [reflexivity|].
  simpl. rewrite isspace_lower_char, <- IH, is_empty_lower.
  now destruct (isspace c && is_empty (rstrip s)).
Qed.

(** Lowering and trimming commute. *)
Lemma lower_strip (s : string) : lower (strip s) = strip (lower s).
Proof. unfold strip. now rewrite lower_rstrip, lower_lstrip. Qed.

(** The normal form of a normal form is itself. *)
Lemma normalise_idem (s : string) :
  strip (lower (strip (lower s))) = strip (lower s).
Proof. now rewrite lower_strip, lower_idem, strip_idem. Qed.

End Normal.

(** X14.  [POST /api/mode] depends on the payload only through its
    normal form, the lowercased and trimmed mode: sending the normal
    form of a payload is answered, and acts on the state, exactly as the
    payload itself, whatever the letter case and the white space around
    it. *)
Theorem set_mode_normal_form {host : Host} (payload_mode : string)
  (st : State) :
  set_mode (strip (lower payload_mode)) st = set_mode payload_mode st.
Proof.
  unfold set_mode. now rewrite normalise_idem.
Qed.

(** X15.  The reader returns the value of the first mode line and looks
    no further: the lines after it, mode lines or not, do not count.
    The white space around the line and around the value is dropped, and
    the value is all that follows the first [=], further [=] included. *)
Theorem read_config_mode_first_mode_line {host : Host} (st : State)
  (out : string) (e : option string) (pre post : list string)
  (l v : string) :
  fst (run_cmd ("cat " ++ CONFIG_PATH) true st) = (out, e, 0%Z) ->
  splitlines out = (pre ++ l :: post)%list ->
  (forall x, In x pre -> is_mode_line x = false) ->
  strip l = "mode=" ++ v ->
  fst (read_config_mode st) = Ret (Some (strip v)).
Proof.
  intros R S P L. unfold read_config_mode.
  destruct (run_cmd ("cat " ++ CONFIG_PATH) true st) as [[[o e'] c] st1].
  cbn [fst] in R. inversion R; subst o e' c. cbn [Z.eqb negb orb].
  assert (T : truthy out = true).
  { destruct out; [|reflexivity]. destruct pre; discriminate. }
  rewrite T, S. cbn [negb fst]. now apply scan_mode_first.
Qed.

Lemma read_config_mode_first_mode_line_witness :
  let text :=
    "# comment" ++ nl ++ "  mode= a=b  " ++ nl ++ "mode=statis" ++ nl in
  fst (read_config_mode (Device.boot Device.rooted_phone (Some text)))
  = Ret (Some "a=b").
Proof.
  intros text.
  apply (read_config_mode_first_mode_line
           (Device.boot Device.rooted_phone (Some text))
           (strip text) None ["# comment"] ["mode=statis"]
           "  mode= a=b  " " a=b");
    try reflexivity.
  intros x [<-|[]]. reflexivity.
Defined.

Section About.

Context {host : Host}.


End About.



Section Quotes.

Lemma contains_app (c : ascii) (a b : string) :
  contains c (a ++ b) = contains c a || contains c b.
Proof.
  induction a as [|x a IH]; [reflexivity|].
  simpl. now rewrite IH, orb_assoc.
Qed.

Lemma contains_repr_char (c : ascii) :
  contains squote (repr_char squote c) = Ascii.eqb c squote.
Proof. destruct c as [[] [] [] [] [] [] [] []]; reflexivity. Qed.

(** The escaped body holds a single quote exactly when the text does. *)
Lemma contains_repr_body (s : string) :
  contains squote (repr_body squote s) = contains squote s.
Proof.
  induction s as [|c s IH]; [reflexivity|].
  simpl. now rewrite contains_app, contains_repr_char, IH.
Qed.

End Quotes.

(** X17.  [sh_escape] wraps the text in single quotes, unless the text
    holds a single quote and no double quote, in which case it wraps it
    in double quotes.  Between the single quotes there is no single
    quote when the text has none; but a text with both kinds of quotes
    is wrapped in single quotes with its single quotes still inside,
    each only preceded by a backslash, which does not protect it in a
    single-quoted shell word. *)
Theorem sh_escape_quoting (s : string) :
  (contains squote s = false ->
   sh_escape s = String squote (repr_body squote s ++ String squote "") /\
   contains squote (repr_body squote s) = false) /\
  (contains squote s = true -> contains dquote s = false ->
   sh_escape s = String dquote (repr_body dquote s ++ String dquote "")) /\
  (contains squote s = true -> contains dquote s = true ->
   sh_escape s = String squote (repr_body squote s ++ String squote "") /\
   contains squote (repr_body squote s) = true).
Proof.
  unfold sh_escape, repr. split; [|split].
  - intros H. rewrite H. split; [reflexivity|].
    now rewrite contains_repr_body.
  - intros H D. now rewrite H, D.
  - intros H D. rewrite H, D. split; [reflexivity|].
    now rewrite contains_repr_body.
Qed.

Lemma sh_escape_quoting_witness :
  let s := "a='x" ++ String dquote "y" in
  contains squote s = true /\ contains dquote s = true /\
  sh_escape s = "'a=\'x" ++ String dquote "y'" /\
  contains squote (repr_body squote s) = true.
Proof.
  intros s. split; [reflexivity|]. split; [reflexivity|].
  destruct (sh_escape_quoting s) as (_ & _ & H).
  apply H; reflexivity.
Defined.

(** * The store beside the escaping

    What the writer assembles, and what the phone holds after a write. *)

(** A text with two mode lines: both are rewritten, where the
    specification replaces the first one only. *)
Lemma two_mode_lines_both_rewritten :
  let before := lines_read (strip Device.two_modes) 0 in
  let content := updated_content "statis" (strip Device.two_modes) 0 in
  before = ["mode=otomatis"; "debug=1"; "mode=otomatis"] /\
  splitlines content = ["mode=statis"; "debug=1"; "mode=statis"] /\
  spec_replace_first "statis" before
  = ["mode=statis"; "debug=1"; "mode=otomatis"].
Proof. repeat split; reflexivity. Qed.

(** X18.  The content a write assembles and hands to its [printf]
    command, for every host.  The text the write works on is the trimmed
    output of [cat].  Every line of it whose trimmed text starts with
    [mode=] is replaced in place by [mode=<value>], every such line and
    not only the first, the other lines are kept, and one line
    [mode=<value>] is appended when there was none.  The content holds as
    many mode lines as the text read, and one when that had none: at
    most one exactly when the text read had at most one. *)
Theorem write_rewrites_every_mode_line {host : Host} (m : string)
  (st : State) :
  in_modes m = true ->
  let '((out, _, code), st1) := run_cmd ("cat " ++ CONFIG_PATH) true st in
  let before := lines_read out code in
  let content := updated_content m out code in
  (exists raw, out = strip raw) /\
  (exists l,
      spawned (snd (write_config_mode m st)) = (spawned st1 ++ l)%list /\
      l <> [] /\
      forall c, In c l ->
        exists prog,
          c = [prog; "-c";
               "printf '%s' " ++ sh_escape content ++ " > " ++ CONFIG_PATH]) /\
  splitlines content
  = (map (fun line => if is_mode_line line then mode_line m else line) before
       ++ if existsb is_mode_line before then [] else [mode_line m])%list /\
  count_mode_lines (splitlines content)
  = Nat.max 1 (count_mode_lines before) /\
  (forall l, In l (splitlines content) ->
             is_mode_line l = true -> l = "mode=" ++ m).
Proof.
  intros H.
  pose proof (run_cmd_output_trimmed ("cat " ++ CONFIG_PATH) true st) as T.
  pose proof (write_config_mode_spawned m st H) as W.
  destruct (run_cmd ("cat " ++ CONFIG_PATH) true st) as [[[out err] code] st1].
  simpl in T. intros before content.
  split; [exact T|]. split; [exact W|].
  unfold content, before.
  rewrite splitlines_updated_content by exact H.
  split; [reflexivity|]. split.
  - now apply count_rewritten.
  - intros l. apply rewritten_mode_lines.
Qed.

Lemma write_rewrites_every_mode_line_witness :
  let st := Device.boot Device.rooted_phone (Some Device.two_modes) in
  in_modes "statis" = true /\
  count_mode_lines
    (splitlines (updated_content "statis" (strip Device.two_modes) 0))
  = Nat.max 1 (count_mode_lines (lines_read (strip Device.two_modes) 0)).
Proof.
  intros st. split; [reflexivity|].
  pose proof (write_rewrites_every_mode_line "statis" st eq_refl) as W.
  destruct W as (_ & _ & _ & C & _). exact C.
Defined.

(** X19.  Writing again assembles the same content.  When the [cat] of
    the configuration file prints the content that a write of a valid
    mode assembled, a write of the same mode runs its write command with
    that very content. *)
Theorem write_again_same_content {host : Host} (m raw : string) (code : Z)
  (st : State) (e : option string) :
  in_modes m = true ->
  let content := updated_content m (strip raw) code in
  fst (run_cmd ("cat " ++ CONFIG_PATH) true st) = (strip content, e, 0%Z) ->
  exists l,
    spawned (snd (write_config_mode m st))
    = (spawned (snd (run_cmd ("cat " ++ CONFIG_PATH) true st)) ++ l)%list /\
    l <> [] /\
    Forall
      (fun c =>
         command_of c
         = "printf '%s' " ++ sh_escape content ++ " > " ++ CONFIG_PATH)
      l.
Proof.
  intros H content R.
  pose proof (write_config_mode_spawned m st H) as W.
  destruct (run_cmd ("cat " ++ CONFIG_PATH) true st) as [[[out err] c] st1].
  cbn [fst snd] in *. inversion R; subst out err c. clear R.
  destruct W as (l & S & N & A).
  exists l. split; [exact S|]. split; [exact N|].
  apply Forall_forall. intros x Hx. destruct (A x Hx) as [prog ->].
  unfold command_of, echo_cmd. cbn [nth].
  unfold content. now rewrite updated_content_idem.
Qed.

Lemma write_again_same_content_witness :
  let content := updated_content "statis" (strip Device.three_lines) 0 in
  let st := Device.boot Device.rooted_phone (Some content) in
  content = "foo=1" ++ nl ++ "mode=statis" ++ nl ++ "bar=2" ++ nl /\
  exists l,
    spawned (snd (write_config_mode "statis" st))
    = (spawned
         (snd (run_cmd ("cat /data/adb/modules/YourModule/config.conf") true
                 st)) ++ l)%list /\
    l <> [] /\
    Forall
      (fun c =>
         command_of c
         = "printf '%s' " ++ sh_escape content
             ++ " > /data/adb/modules/YourModule/config.conf")
      l.
Proof.
  intros content st. split; [reflexivity|].
  exact (write_again_same_content "statis" Device.three_lines 0 st None
           eq_refl eq_refl).
Defined.

Section AfterWrite.

(** After a write that succeeded on the rooted phone, [GET /api/mode]
    answers [unknown]. *)
Lemma get_mode_after_write (m : string)
  (st : @State (Device.host Device.rooted_phone)) :
  in_modes m = true ->
  fst (write_config_mode m st) = Ret true ->
  fst (get_mode (snd (write_config_mode m st)))
  = OK ("unknown", "/data/adb/modules/YourModule/config.conf").
Proof.
  intros H W. destruct (read_back_on_phone m st H W) as [_ R].
  unfold get_mode.
  destruct (read_config_mode (snd (write_config_mode m st))) as [r st2].
  cbn [fst] in R. destruct R as [->|(v & -> & Lv)]; [reflexivity|].
  cbn [fst].
  assert (I : in_modes v = false).
  { destruct (in_modes v) eqn:I; [|reflexivity].
    destruct (in_modes_cases v I) as [-> | ->]; discriminate. }
  now rewrite I.
Qed.

End AfterWrite.

(** X20.  On the rooted phone the mode written is never the mode read.
    Whatever the configuration file holds, as long as it holds no single
    quote, or when there is none, and for both modes: after a write that
    succeeded the file is one line, which is not [mode=<value>]; the read
    that follows does not return the mode written, and [GET /api/mode]
    answers [unknown]. *)
Theorem written_mode_not_read_back (m : string)
  (st : @State (Device.host Device.rooted_phone)) :
  in_modes m = true ->
  no_single_quote (Device.config _ st) ->
  fst (write_config_mode m st) = Ret true ->
  let st' := snd (write_config_mode m st) in
  List.length (Device.file_lines (Device.config _ st')) = 1 /\
  ~ In ("mode=" ++ m) (Device.file_lines (Device.config _ st')) /\
  fst (read_config_mode st') <> Ret (Some m) /\
  fst (get_mode st') = OK ("unknown", "/data/adb/modules/YourModule/config.conf").
Proof.
  intros H _ W st'.
  destruct (read_back_on_phone m st H W) as [(body & C & F & L) R].
  fold st' in C, R. rewrite C, F.
  assert (N : forall v, last_char v = Some "n"%char -> v <> m).
  { intros v Lv ->. destruct (in_modes_cases m H) as [-> | ->]; discriminate. }
  split; [reflexivity|]. split; [|split].
  - intros [E|[]]. subst body.
    destruct (in_modes_cases m H) as [-> | ->]; discriminate.
  - destruct R as [R|(v & R & Lv)]; rewrite R; [discriminate|].
    intros E. inversion E. now apply (N v Lv).
  - now apply get_mode_after_write.
Qed.

Lemma written_mode_not_read_back_witness :
  let st := Device.boot Device.rooted_phone (Some Device.two_modes) in
  in_modes "otomatis" = true /\
  no_single_quote (Some Device.two_modes) /\
  fst (write_config_mode "otomatis" st) = Ret true /\
  fst (read_config_mode (snd (write_config_mode "otomatis" st)))
  <> Ret (Some "otomatis").
Proof.
  intros st.
  assert (Q : no_single_quote (Some Device.two_modes)).
  { intros text E. inversion E. reflexivity. }
  split; [reflexivity|]. split; [exact Q|]. split; [reflexivity|].
  exact (proj1 (proj2 (proj2
           (written_mode_not_read_back "otomatis" st eq_refl Q eq_refl)))).
Defined.

(** X21.  On the rooted phone a mode that [POST /api/mode] accepted is
    not the mode [GET /api/mode] reports afterwards.  Whatever the
    payload and the state, as long as the configuration file holds no
    single quote: when the request is answered with a mode, that mode is
    the lowercased, trimmed payload, one of the two literals, and the
    [GET] that follows answers [unknown]. *)
Theorem accepted_mode_reads_unknown (payload_mode mode : string)
  (st : @State (Device.host Device.rooted_phone)) :
  no_single_quote (Device.config _ st) ->
  fst (set_mode payload_mode st) = OK (true, mode) ->
  mode = strip (lower payload_mode) /\
  in_modes mode = true /\
  fst (get_mode (snd (set_mode payload_mode st)))
  = OK ("unknown", "/data/adb/modules/YourModule/config.conf").
Proof.
  intros Q. unfold set_mode.
  destruct (in_modes (strip (lower payload_mode))) eqn:H;
    cbn [negb]; [|discriminate].
  pose proof (get_mode_after_write (strip (lower payload_mode)) st H) as B.
  destruct (write_config_mode (strip (lower payload_mode)) st)
    as [[success|e] st1]; [|discriminate].
  destruct success; cbn [negb fst snd] in *; [|discriminate].
  intros E. inversion E; subst mode.
  split; [reflexivity|]. split; [exact H|]. now apply B.
Qed.

Lemma accepted_mode_reads_unknown_witness :
  let st := Device.boot Device.rooted_phone (Some Device.three_lines) in
  no_single_quote (Some Device.three_lines) /\
  fst (set_mode "Statis" st) = OK (true, "statis") /\
  fst (get_mode (snd (set_mode "Statis" st)))
  = OK ("unknown", "/data/adb/modules/YourModule/config.conf").
Proof.
  intros st.
  assert (Q : no_single_quote (Some Device.three_lines)).
  { intros text E. inversion E. reflexivity. }
  split; [exact Q|]. split; [reflexivity|].
  exact (proj2 (proj2
           (accepted_mode_reads_unknown "Statis" "statis" st Q eq_refl))).
Defined.
